(** * Minimize to Tray: a shallow embedding of [src/__init__.py]

    The add-on is a single class, [AnkiSystemTray], attached to the main
    window of the host application by the module-level function
    [minimizeToTrayInit].  The embedding keeps the names of the source.
    Python values, the GUI toolkit and the host application are modelled as
    far as the add-on reads or writes them. *)

From Stdlib Require Import ZArith String Ascii List Bool Lia DecimalString.
From stdpp Require Import gmap strings list fin_maps.

Local Open Scope string_scope.
Local Open Scope list_scope.
Local Open Scope Z_scope.

(** ** Python values *)

Module Py.

(** Exceptions the modelled code can raise. *)
Inductive PyExc : Type :=
| KeyError (key : string)
| IndexError
| TypeError (msg : string)
| AttributeError (name : string).

(** The outcome of a Python call: [inl e] when [e] was raised. *)
Definition PyResult (A : Type) : Type := (PyExc + A)%type.

(** [str(number)] for an [int].  A [str] is kept as its UTF-8 encoding. *)
Definition str (number : Z) : string :=
  NilEmpty.string_of_int (Z.to_int number).

(** [s[i]] on a [str]: raises [IndexError] out of range. *)
Definition getitem (s : string) (i : nat) : PyResult ascii :=
  match String.get i s with
  | Some c => inr c
  | None => inl IndexError
  end.

(** The values a JSON configuration file can hold, as far as the add-on
    distinguishes them (numbers are integers here). *)
Inductive JVal : Type :=
| JNull
| JBool (b : bool)
| JInt (z : Z)
| JStr (s : string).

(** [v == False]: [bool] is a subclass of [int], so [0 == False] holds. *)
Definition eq_False (v : JVal) : bool :=
  match v with
  | JBool b => negb b
  | JInt z => z =? 0
  | _ => false
  end.

(** Truth value of [v] in an [if]. *)
Definition truthy (v : JVal) : bool :=
  match v with
  | JNull => false
  | JBool b => b
  | JInt z => negb (z =? 0)
  | JStr s => negb (String.eqb s "")
  end.

(** A value used as the font size: [32 - fontSize] raises [TypeError] for
    [None] and for a text.  What the toolkit itself asks of the number (the
    range of a C [int]) is left out. *)
Definition as_int (v : JVal) : PyResult Z :=
  match v with
  | JInt z => inr z
  | JBool b => inr (Z.b2z b)
  | JNull => inl (TypeError "NoneType")
  | JStr _ => inl (TypeError "str")
  end.

(** [d[key]] on a [dict]: raises [KeyError] when the key is absent. *)
Definition dict_getitem (d : gmap string JVal) (key : string) : PyResult JVal :=
  match d !! key with
  | Some v => inr v
  | None => inl (KeyError key)
  end.

(** [key in d]. *)
Definition dict_contains (d : gmap string JVal) (key : string) : bool :=
  bool_decide (is_Some (d !! key)).

End Py.

(** ** Badge text *)

(** The literal of the last branch of [_formatNumber], byte for byte as it
    stands in the source file (U+00E2, U+02C6, U+017E). *)
Definition overflow_literal : string :=
  String (ascii_of_nat 195) (String (ascii_of_nat 162)
  (String (ascii_of_nat 203) (String (ascii_of_nat 134)
  (String (ascii_of_nat 197) (String (ascii_of_nat 190) EmptyString))))).

(** The infinity glyph U+221E. *)
Definition infinity_glyph : string :=
  String (ascii_of_nat 226) (String (ascii_of_nat 136)
  (String (ascii_of_nat 158) EmptyString)).

Definition _formatNumber (number : Z) : Py.PyResult string :=
  let numberString := Py.str number in
  if number <? 1000 then inr (Py.str number)
  else if (number >=? 1000) && (number <? 10000) then
    match Py.getitem numberString 0, Py.getitem numberString 1 with
    | inr c0, inr c1 =>
        inr (String c0 (String "." (String c1 "k")))
    | inl e, _ => inl e
    | _, inl e => inl e
    end
  else inr overflow_literal.

Definition _getCardsDueDisplayNumber (amount : Z) : Py.PyResult string :=
  _formatNumber amount.

(** ** The GUI toolkit

    Widgets live in a heap owned by the toolkit; the add-on holds
    references (positions in the heap).  A reference outlives the widget:
    [sip.isdeleted] tells whether the widget behind it is gone. *)

Module Qt.

(** The members of [Qt.WindowState] are flags; [windowState()] reports
    the flags that are set, combined with bitwise or: a maximized window
    that is minimized reports [WindowMinimized | WindowMaximized]. *)
Definition WindowState : Type := Z.

Definition WindowNoState : WindowState := 0.
Definition WindowMinimized : WindowState := 1.
Definition WindowMaximized : WindowState := 2.
Definition WindowFullScreen : WindowState := 4.
Definition WindowActive : WindowState := 8.

Record Widget : Type := mkWidget {
  isWindow : bool;
  isHidden : bool;
  children : list nat;
  windowState : WindowState;
  isdeleted : bool
}.

(** [isMinimized()] returns a [bool]: whether the flag [WindowMinimized]
    is set. *)
Definition isMinimized (w : Widget) : bool :=
  negb (Z.land (windowState w) WindowMinimized =? 0).

Definition hide (w : Widget) : Widget :=
  mkWidget (isWindow w) true (children w) (windowState w) (isdeleted w).

Definition show (w : Widget) : Widget :=
  mkWidget (isWindow w) false (children w) (windowState w) (isdeleted w).

(** [showNormal()] shows the widget and clears the flags
    [WindowMinimized], [WindowMaximized] and [WindowFullScreen]. *)
Definition showNormal (w : Widget) : Widget :=
  mkWidget (isWindow w) false (children w)
    (Z.ldiff (windowState w)
       (Z.lor WindowMinimized (Z.lor WindowMaximized WindowFullScreen)))
    (isdeleted w).

(** Calls on widgets, as the toolkit receives them. *)
Inductive WidgetCall : Type :=
| CallHide
| CallShow
| CallShowNormal
| CallRaise
| CallActivateWindow.

Inductive ActivationReason : Type :=
| Unknown
| Context
| DoubleClick
| Trigger
| MiddleClick.

Definition ActivationReason_eqb (r1 r2 : ActivationReason) : bool :=
  match r1, r2 with
  | Unknown, Unknown
  | Context, Context
  | DoubleClick, DoubleClick
  | Trigger, Trigger
  | MiddleClick, MiddleClick => true
  | _, _ => false
  end.

(** Painting. *)
Record QRect : Type := mkRect { rx : Z; ry : Z; rwidth : Z; rheight : Z }.

(** [theme_manager.qcolor(name)]: the colour depends on the active theme. *)
Inductive QColor : Type :=
| ThemeColor (name : string) (night_mode : bool).

Inductive PaintOp : Type :=
| FillRoundedRect (rect : QRect) (xRadius yRadius : Z) (brush : QColor)
| DrawText (rect : QRect) (pixelSize : Z) (bold : bool) (pen : QColor)
    (text : string).

Record QIcon : Type := mkIcon {
  pixmap : string;
  painted : list PaintOp
}.

(** Receivers of signals: the main window's own [close], or a bound method
    of the [AnkiSystemTray] object number [inst]. *)
Inductive Method : Type :=
| m_showAll
| m_onExit
| m_onActivated
| m_onFocusChanged.

Inductive Slot : Type :=
| mw_close
| bound (inst : nat) (m : Method).

Global Instance Method_eq_dec : EqDecision Method.
Proof. solve_decision. Defined.

Global Instance Slot_eq_dec : EqDecision Slot.
Proof. solve_decision. Defined.

Inductive QAction : Type :=
| NewAction (text : string) (triggered : list Slot)
| actionExit.

Record QSystemTrayIcon : Type := mkTrayIcon {
  icon : option QIcon;
  visible : bool;
  contextMenu : list QAction;
  activated : list Slot
}.

Record QCloseEvent : Type := mkCloseEvent { isAccepted : bool }.

Definition ignore (e : QCloseEvent) : QCloseEvent := mkCloseEvent false.

End Qt.

(** ** The host application *)

Module Anki.

(** A child of the tree returned by [deck_due_tree()]. *)
Record DeckTreeNode : Type := mkNode {
  new_count : Z;
  learn_count : Z;
  review_count : Z
}.

(** The function installed as [mw.closeEvent]. *)
Inductive CloseHandler : Type :=
| AnkiQt_closeEvent_handler
| repl_handler.

(** The main window [mw], as far as the add-on touches it. *)
Record MainWindow : Type := mkMainWindow {
  mw_widget : nat;
  attrs : gset string;
  closeEventFromAction : bool;
  closeEvent : CloseHandler;
  actionExit_triggered : list Qt.Slot;
  focusChanged : list Qt.Slot
}.

(** Entries of the [gui_hooks] lists: [updateSystemTrayIcon] of object
    [inst], forced or not. *)
Inductive Hook : Type :=
| updateFunction (inst : nat)
| forceUpdateFunction (inst : nat).

Record GuiHooks : Type := mkHooks {
  theme_did_change : list Hook;
  state_did_change : list Hook;
  operation_did_execute : list Hook
}.

End Anki.

(** ** Everything outside the add-on object

    [widgets] is the toolkit's heap and [calls] the log of the calls made on
    widgets, newest first.  [trayIcons] holds the tray icons made so far.
    [deck_due_tree] is what the scheduler answers, [config] what
    [getConfig] answers, [platform] is [sys.platform].  [running] is false
    once the host has closed down; [instances] counts the [AnkiSystemTray]
    objects made so far. *)

Record World : Type := mkWorld {
  widgets : list Qt.Widget;
  calls : list (nat * Qt.WidgetCall);
  trayIcons : list Qt.QSystemTrayIcon;
  quitOnLastWindowClosed : bool;
  mw : Anki.MainWindow;
  gui_hooks : Anki.GuiHooks;
  deck_due_tree : list Anki.DeckTreeNode;
  config : gmap string Py.JVal;
  night_mode : bool;
  platform : string;
  running : bool;
  instances : nat
}.

Definition set_widgets (ws : list Qt.Widget) (w : World) : World :=
  mkWorld ws (calls w) (trayIcons w) (quitOnLastWindowClosed w) (mw w)
    (gui_hooks w) (deck_due_tree w) (config w) (night_mode w) (platform w)
    (running w) (instances w).

Definition set_calls (cs : list (nat * Qt.WidgetCall)) (w : World) : World :=
  mkWorld (widgets w) cs (trayIcons w) (quitOnLastWindowClosed w) (mw w)
    (gui_hooks w) (deck_due_tree w) (config w) (night_mode w) (platform w)
    (running w) (instances w).

Definition set_trayIcons (ts : list Qt.QSystemTrayIcon) (w : World) : World :=
  mkWorld (widgets w) (calls w) ts (quitOnLastWindowClosed w) (mw w)
    (gui_hooks w) (deck_due_tree w) (config w) (night_mode w) (platform w)
    (running w) (instances w).

Definition setQuitOnLastWindowClosed (b : bool) (w : World) : World :=
  mkWorld (widgets w) (calls w) (trayIcons w) b (mw w)
    (gui_hooks w) (deck_due_tree w) (config w) (night_mode w) (platform w)
    (running w) (instances w).

Definition set_mw (m : Anki.MainWindow) (w : World) : World :=
  mkWorld (widgets w) (calls w) (trayIcons w) (quitOnLastWindowClosed w) m
    (gui_hooks w) (deck_due_tree w) (config w) (night_mode w) (platform w)
    (running w) (instances w).

Definition set_gui_hooks (h : Anki.GuiHooks) (w : World) : World :=
  mkWorld (widgets w) (calls w) (trayIcons w) (quitOnLastWindowClosed w) (mw w)
    h (deck_due_tree w) (config w) (night_mode w) (platform w)
    (running w) (instances w).

Definition set_running (b : bool) (w : World) : World :=
  mkWorld (widgets w) (calls w) (trayIcons w) (quitOnLastWindowClosed w) (mw w)
    (gui_hooks w) (deck_due_tree w) (config w) (night_mode w) (platform w)
    b (instances w).

Definition set_instances (n : nat) (w : World) : World :=
  mkWorld (widgets w) (calls w) (trayIcons w) (quitOnLastWindowClosed w) (mw w)
    (gui_hooks w) (deck_due_tree w) (config w) (night_mode w) (platform w)
    (running w) n.

Definition set_deck_due_tree (t : list Anki.DeckTreeNode) (w : World) : World :=
  mkWorld (widgets w) (calls w) (trayIcons w) (quitOnLastWindowClosed w) (mw w)
    (gui_hooks w) t (config w) (night_mode w) (platform w)
    (running w) (instances w).

Definition set_night_mode (b : bool) (w : World) : World :=
  mkWorld (widgets w) (calls w) (trayIcons w) (quitOnLastWindowClosed w) (mw w)
    (gui_hooks w) (deck_due_tree w) (config w) b (platform w)
    (running w) (instances w).

(** [mw.name = ...] makes [name] an attribute of [mw]. *)
Definition mw_setattr (name : string) (m : Anki.MainWindow) : Anki.MainWindow :=
  Anki.mkMainWindow (Anki.mw_widget m) ({[ name ]} ∪ Anki.attrs m)
    (Anki.closeEventFromAction m) (Anki.closeEvent m)
    (Anki.actionExit_triggered m) (Anki.focusChanged m).

Definition hasattr (m : Anki.MainWindow) (name : string) : bool :=
  bool_decide (name ∈ Anki.attrs m).

Definition set_closeEventFromAction (b : bool) (m : Anki.MainWindow)
  : Anki.MainWindow :=
  mw_setattr "closeEventFromAction"
    (Anki.mkMainWindow (Anki.mw_widget m) (Anki.attrs m) b (Anki.closeEvent m)
       (Anki.actionExit_triggered m) (Anki.focusChanged m)).

Definition set_closeEvent (h : Anki.CloseHandler) (m : Anki.MainWindow)
  : Anki.MainWindow :=
  mw_setattr "closeEvent"
    (Anki.mkMainWindow (Anki.mw_widget m) (Anki.attrs m)
       (Anki.closeEventFromAction m) h
       (Anki.actionExit_triggered m) (Anki.focusChanged m)).

Definition set_actionExit_triggered (l : list Qt.Slot) (m : Anki.MainWindow)
  : Anki.MainWindow :=
  Anki.mkMainWindow (Anki.mw_widget m) (Anki.attrs m)
    (Anki.closeEventFromAction m) (Anki.closeEvent m) l (Anki.focusChanged m).

Definition set_focusChanged (l : list Qt.Slot) (m : Anki.MainWindow)
  : Anki.MainWindow :=
  Anki.mkMainWindow (Anki.mw_widget m) (Anki.attrs m)
    (Anki.closeEventFromAction m) (Anki.closeEvent m)
    (Anki.actionExit_triggered m) l.

(** *** Widget references *)

(** What a reference that points outside the heap stands for: a widget
    that no longer exists. *)
Definition dead_widget : Qt.Widget :=
  Qt.mkWidget false true [] Qt.WindowNoState true.

Definition the_widget (w : World) (ref : nat) : Qt.Widget :=
  default dead_widget (widgets w !! ref).

Definition sip_isdeleted (w : World) (ref : nat) : bool :=
  Qt.isdeleted (the_widget w ref).

(** The effect of a call on the widget itself; [raise_] and
    [activateWindow] only reorder and focus, which the add-on never reads
    back. *)
Definition apply_call (c : Qt.WidgetCall) (wd : Qt.Widget) : Qt.Widget :=
  match c with
  | Qt.CallHide => Qt.hide wd
  | Qt.CallShow => Qt.show wd
  | Qt.CallShowNormal => Qt.showNormal wd
  | Qt.CallRaise => wd
  | Qt.CallActivateWindow => wd
  end.

(** [ref.c()]: the widget changes and the call is logged, newest first. *)
Definition widget_call (ref : nat) (c : Qt.WidgetCall) (w : World) : World :=
  set_calls ((ref, c) :: calls w)
    (set_widgets (alter (apply_call c) ref (widgets w)) w).

(** [QApplication.topLevelWidgets()]: the existing widgets that are
    windows. *)
Definition QApplication_topLevelWidgets (w : World) : list nat :=
  List.filter
    (fun ref => negb (sip_isdeleted w ref) && Qt.isWindow (the_widget w ref))
    (seq 0 (length (widgets w))).

(** [trayIcon.setIcon(icon)] and [trayIcon.show()]. *)
Definition setIcon (ti : nat) (ic : Qt.QIcon) (w : World) : World :=
  set_trayIcons
    (alter (fun t => Qt.mkTrayIcon (Some ic) (Qt.visible t) (Qt.contextMenu t)
                       (Qt.activated t)) ti (trayIcons w)) w.

Definition trayIcon_show (ti : nat) (w : World) : World :=
  set_trayIcons
    (alter (fun t => Qt.mkTrayIcon (Qt.icon t) true (Qt.contextMenu t)
                       (Qt.activated t)) ti (trayIcons w)) w.

(** The image the tray icon [ti] shows. *)
Definition tray_image (w : World) (ti : nat) : option Qt.QIcon :=
  trayIcons w !! ti ≫= Qt.icon.

(** ** The add-on object *)

(** The attributes of an [AnkiSystemTray] object.  [ident] tells objects
    apart (the signals and hooks keep bound methods of a given object). *)
Record AnkiSystemTray : Type := mkTray {
  ident : nat;
  showDueAmount : bool;
  dueFontSize : Py.JVal;
  isAnkiFocused : bool;
  isMinimizedToTray : bool;
  lastFocusedWidget : nat;
  explicitlyHiddenWindows : list nat;
  trayIcon : nat;
  _displayedNumberOfCardsDue : Z
}.

(** A fresh object sees the attributes of the class: [dueFontSize = 16],
    [showDueAmount = True], [_displayedNumberOfCardsDue = 0].  The other
    fields are instance attributes, assigned by [__init__] before any
    method reads them. *)
Definition class_attributes (id : nat) : AnkiSystemTray :=
  mkTray id true (Py.JInt 16) true false 0%nat [] 0%nat 0.

Definition set_showDueAmount (b : bool) (s : AnkiSystemTray) : AnkiSystemTray :=
  mkTray (ident s) b (dueFontSize s) (isAnkiFocused s) (isMinimizedToTray s)
    (lastFocusedWidget s) (explicitlyHiddenWindows s) (trayIcon s)
    (_displayedNumberOfCardsDue s).

Definition set_dueFontSize (v : Py.JVal) (s : AnkiSystemTray) : AnkiSystemTray :=
  mkTray (ident s) (showDueAmount s) v (isAnkiFocused s) (isMinimizedToTray s)
    (lastFocusedWidget s) (explicitlyHiddenWindows s) (trayIcon s)
    (_displayedNumberOfCardsDue s).

Definition set_isAnkiFocused (b : bool) (s : AnkiSystemTray) : AnkiSystemTray :=
  mkTray (ident s) (showDueAmount s) (dueFontSize s) b (isMinimizedToTray s)
    (lastFocusedWidget s) (explicitlyHiddenWindows s) (trayIcon s)
    (_displayedNumberOfCardsDue s).

Definition set_isMinimizedToTray (b : bool) (s : AnkiSystemTray)
  : AnkiSystemTray :=
  mkTray (ident s) (showDueAmount s) (dueFontSize s) (isAnkiFocused s) b
    (lastFocusedWidget s) (explicitlyHiddenWindows s) (trayIcon s)
    (_displayedNumberOfCardsDue s).

Definition set_lastFocusedWidget (ref : nat) (s : AnkiSystemTray)
  : AnkiSystemTray :=
  mkTray (ident s) (showDueAmount s) (dueFontSize s) (isAnkiFocused s)
    (isMinimizedToTray s) ref (explicitlyHiddenWindows s) (trayIcon s)
    (_displayedNumberOfCardsDue s).

Definition set_explicitlyHiddenWindows (l : list nat) (s : AnkiSystemTray)
  : AnkiSystemTray :=
  mkTray (ident s) (showDueAmount s) (dueFontSize s) (isAnkiFocused s)
    (isMinimizedToTray s) (lastFocusedWidget s) l (trayIcon s)
    (_displayedNumberOfCardsDue s).

Definition set_trayIcon (ti : nat) (s : AnkiSystemTray) : AnkiSystemTray :=
  mkTray (ident s) (showDueAmount s) (dueFontSize s) (isAnkiFocused s)
    (isMinimizedToTray s) (lastFocusedWidget s) (explicitlyHiddenWindows s) ti
    (_displayedNumberOfCardsDue s).

Definition set_displayedNumberOfCardsDue (n : Z) (s : AnkiSystemTray)
  : AnkiSystemTray :=
  mkTray (ident s) (showDueAmount s) (dueFontSize s) (isAnkiFocused s)
    (isMinimizedToTray s) (lastFocusedWidget s) (explicitlyHiddenWindows s)
    (trayIcon s) n.

(** The state a method runs in: the object and everything around it. *)
Record App : Type := mkApp {
  self : AnkiSystemTray;
  world : World
}.

Definition on_self (f : AnkiSystemTray -> AnkiSystemTray) (a : App) : App :=
  mkApp (f (self a)) (world a).

Definition on_world (f : World -> World) (a : App) : App :=
  mkApp (self a) (f (world a)).

(** Code that may raise: what was written before the exception stays
    written. *)
Definition M (A : Type) : Type := App -> Py.PyResult A * App.

Definition ret {A : Type} (x : A) : M A := fun a => (inr x, a).

Definition raise {A : Type} (e : Py.PyExc) : M A := fun a => (inl e, a).

Definition bind {A B : Type} (m : M A) (k : A -> M B) : M B :=
  fun a =>
    match m a with
    | (inr x, a') => k x a'
    | (inl e, a') => (inl e, a')
    end.

Definition lift {A : Type} (r : Py.PyResult A) : M A := fun a => (r, a).

Definition exec (f : App -> App) : M unit := fun a => (inr tt, f a).

Definition gets {A : Type} (f : App -> A) : M A := fun a => (inr (f a), a).

Declare Scope py_scope.
Delimit Scope py_scope with py.
Notation "x <- m ;; k" := (bind m (fun x => k))
  (at level 20, m at level 99, k at level 200, only parsing) : py_scope.
Notation "m ;; k" := (bind m (fun _ => k))
  (at level 100, k at level 200, only parsing, right associativity) : py_scope.

Local Open Scope py_scope.

Section Methods.

(** [_showWindows] tests [w.isMinimized() == Qt.WindowState.WindowMinimized]:
    a [bool] compared with a member of the binding's [WindowState]
    enumeration.  What [==] answers there is decided by the class of that
    member, which the Qt binding declares and the add-on does not:
    [bool_eq_WindowMinimized b] is the answer for the [bool] [b]. *)
Variable bool_eq_WindowMinimized : bool -> bool.

Definition onFocusChanged (old now : option nat) (a : App) : App :=
  let focused := match now with Some _ => true | None => false end in
  let a1 := on_self (set_isAnkiFocused focused) a in
  if isAnkiFocused (self a1) then
    match now with
    | Some ref => on_self (set_lastFocusedWidget ref) a1
    | None => a1
    end
  else a1.

Definition _visibleWindows (w : World) : list nat :=
  List.filter
    (fun ref =>
       let wd := the_widget w ref in
       Qt.isWindow wd && negb (Qt.isHidden wd)
       && negb (bool_decide (Qt.children wd = [])))
    (QApplication_topLevelWidgets w).

Definition _anyWindowMinimized (w : World) : bool :=
  existsb
    (fun ref =>
       Qt.windowState (the_widget w ref) =? Qt.WindowMinimized)
    (_visibleWindows w).

(** One turn of the loop of [_showWindows]. *)
Definition _showWindows_body (w : World) (ref : nat) : World :=
  if sip_isdeleted w ref then w
  else
    let w1 :=
      if bool_eq_WindowMinimized (Qt.isMinimized (the_widget w ref))
      then widget_call ref Qt.CallShowNormal w
      else widget_call ref Qt.CallShow (widget_call ref Qt.CallHide w) in
    widget_call ref Qt.CallRaise w1.

Definition _showWindows (windows : list nat) (w : World) : World :=
  foldl _showWindows_body w windows.

Definition showAll (a : App) : App :=
  let s := self a in
  let w1 :=
    if isMinimizedToTray s
    then _showWindows (explicitlyHiddenWindows s) (world a)
    else _showWindows (_visibleWindows (world a)) (world a) in
  let w2 :=
    if negb (sip_isdeleted w1 (lastFocusedWidget s))
    then widget_call (lastFocusedWidget s) Qt.CallActivateWindow
           (widget_call (lastFocusedWidget s) Qt.CallRaise w1)
    else w1 in
  mkApp (set_isMinimizedToTray false s) w2.

Definition hideAll (a : App) : App :=
  let snapshot := _visibleWindows (world a) in
  let s1 := set_explicitlyHiddenWindows snapshot (self a) in
  let w1 :=
    foldl (fun w ref => widget_call ref Qt.CallHide w) (world a)
      (explicitlyHiddenWindows s1) in
  mkApp (set_isMinimizedToTray true s1) w1.

Definition onActivated (reason : Qt.ActivationReason) (a : App) : App :=
  if Qt.ActivationReason_eqb reason Qt.Trigger then
    if negb (isAnkiFocused (self a))
       || _anyWindowMinimized (world a)
       || isMinimizedToTray (self a)
    then showAll a
    else if negb (String.prefix "win32" (platform (world a)))
    then hideAll a
    else a
  else a.

(** Modelled from the spec: [AnkiQt.closeEvent], the close handler of the
    host's main window, which the add-on calls but does not contain.  The
    specification has the process exit with the main window: the original
    close behaviour ends the application. *)
Definition AnkiQt_closeEvent (a : App) (event : Qt.QCloseEvent)
  : App * Qt.QCloseEvent :=
  (on_world (set_running false) a, event).

(** The original handler as a call that may raise. *)
Definition call_AnkiQt_closeEvent (event : Qt.QCloseEvent)
  : M Qt.QCloseEvent :=
  fun a => let '(a1, event1) := AnkiQt_closeEvent a event in (inr event1, a1).

(** The replacement installed by [_wrapCloseCloseEvent].  Its [self] is the
    main window; [self.systemTray] is the attribute that
    [minimizeToTrayInit] assigns once [AnkiSystemTray(mw)] has returned, and
    reading it raises [AttributeError] as long as it is unassigned.  When it
    is assigned, the object it refers to is [self a]. *)
Definition repl (event : Qt.QCloseEvent) : M Qt.QCloseEvent :=
  closeEventFromAction <-
    gets (fun a => Anki.closeEventFromAction (mw (world a))) ;;
  if (closeEventFromAction : bool) then call_AnkiQt_closeEvent event
  else
    assigned <- gets (fun a => hasattr (mw (world a)) "systemTray") ;;
    if (assigned : bool) then
      exec hideAll ;;
      ret (Qt.ignore event)
    else raise (Py.AttributeError "systemTray").

(** The toolkit handing a close event to [mw.closeEvent]: the answer is the
    event as the handler leaves it. *)
Definition mw_closeEvent (event : Qt.QCloseEvent) : M Qt.QCloseEvent :=
  handler <- gets (fun a => Anki.closeEvent (mw (world a))) ;;
  match handler with
  | Anki.AnkiQt_closeEvent_handler => call_AnkiQt_closeEvent event
  | Anki.repl_handler => repl event
  end.

(** [mw.close()], also what the close button of the window does: the
    window gets a close event, accepted as it is sent, and is hidden if the
    event comes back accepted.  An exception that leaves the handler is
    reported by the host and does not reach the caller of [close()]; the
    event is then as it was sent. *)
Definition QWidget_close (a : App) : App :=
  let sent := Qt.mkCloseEvent true in
  let '(outcome, a1) := mw_closeEvent sent a in
  let event := match outcome with inr event1 => event1 | inl _ => sent end in
  if Qt.isAccepted event
  then on_world
         (fun w => set_widgets
                     (alter Qt.hide (Anki.mw_widget (mw w)) (widgets w)) w) a1
  else a1.

Definition onExit (a : App) : App :=
  QWidget_close
    (on_world (fun w => set_mw (set_closeEventFromAction true (mw w)) w) a).

Definition _getAmountOfCardsDue (a : App) : Z :=
  if negb (showDueAmount (self a)) then 0
  else
    foldl
      (fun total child =>
         total + Anki.new_count child + Anki.learn_count child
         + Anki.review_count child)
      0 (deck_due_tree (world a)).

Definition _createReviewsIcon (a : App) (text : string) (renderNumber : bool)
  : Py.PyResult Qt.QIcon :=
  let textColor := Qt.ThemeColor "STATE_LEARN" (night_mode (world a)) in
  let backgroundColor :=
    Qt.ThemeColor "CANVAS_ELEVATED" (night_mode (world a)) in
  match Py.as_int (dueFontSize (self a)) with
  | inl e => inl e
  | inr fontSize =>
      let sizeRect := Qt.mkRect 0 (32 - fontSize) 32 fontSize in
      inr (Qt.mkIcon "icons:anki.png"
             (if renderNumber
              then [Qt.FillRoundedRect sizeRect 5 5 backgroundColor;
                    Qt.DrawText sizeRect fontSize true textColor text]
              else []))
  end.

Definition _setSystemTrayIcon (trayIcon : nat) (numberOfReviews : Z) : M unit :=
  displayNumber <- lift (_getCardsDueDisplayNumber numberOfReviews) ;;
  shouldShowNumber <-
    gets (fun a => (numberOfReviews >? 0) && showDueAmount (self a)) ;;
  ankiLogo <-
    (fun a => (_createReviewsIcon a displayNumber shouldShowNumber, a)) ;;
  exec (on_world (setIcon trayIcon ankiLogo)).

Definition updateSystemTrayIcon (force : bool) : M unit :=
  numberOfCardsDue <- gets _getAmountOfCardsDue ;;
  didDueCardCountChange <-
    gets (fun a =>
            negb (numberOfCardsDue =? _displayedNumberOfCardsDue (self a))) ;;
  shouldShowDueAmount <- gets (fun a => showDueAmount (self a)) ;;
  let shouldUpdate := shouldShowDueAmount && didDueCardCountChange in
  if shouldUpdate || force then
    exec (on_self (set_displayedNumberOfCardsDue numberOfCardsDue)) ;;
    ti <- gets (fun a => trayIcon (self a)) ;;
    _setSystemTrayIcon ti numberOfCardsDue
  else ret tt.

Definition _addHooks (a : App) : App :=
  let id := ident (self a) in
  on_world
    (fun w =>
       let h := gui_hooks w in
       set_gui_hooks
         (Anki.mkHooks
            (Anki.theme_did_change h ++ [Anki.forceUpdateFunction id])
            (Anki.state_did_change h ++ [Anki.updateFunction id])
            (Anki.operation_did_execute h ++ [Anki.updateFunction id])) w) a.

Definition _createSystemTrayIcon : M nat :=
  trayIcon <- gets (fun a => length (trayIcons (world a))) ;;
  exec (on_world
          (fun w => set_trayIcons
                      (trayIcons w ++ [Qt.mkTrayIcon None false [] []]) w)) ;;
  numberOfReviews <- gets _getAmountOfCardsDue ;;
  _setSystemTrayIcon trayIcon numberOfReviews ;;
  id <- gets (fun a => ident (self a)) ;;
  exec (on_world
          (fun w =>
             set_trayIcons
               (alter
                  (fun t =>
                     Qt.mkTrayIcon (Qt.icon t) (Qt.visible t)
                       [Qt.NewAction "Show all windows" [Qt.bound id Qt.m_showAll];
                        Qt.actionExit]
                       (Qt.activated t ++ [Qt.bound id Qt.m_onActivated]))
                  trayIcon (trayIcons w)) w)) ;;
  ret trayIcon.

(** [signal.disconnect(slot)] raises when [slot] is not connected. *)
Definition disconnect (slot : Qt.Slot) (connected : list Qt.Slot)
  : Py.PyResult (list Qt.Slot) :=
  if bool_decide (slot ∈ connected)
  then inr (list_difference connected [slot])
  else inl (Py.TypeError "disconnect() failed").

Definition _configureMw : M unit :=
  exec (on_world (fun w => set_mw (set_closeEventFromAction false (mw w)) w)) ;;
  id <- gets (fun a => ident (self a)) ;;
  exec (on_world
          (fun w =>
             set_mw (set_focusChanged
                       (Anki.focusChanged (mw w)
                        ++ [Qt.bound id Qt.m_onFocusChanged]) (mw w)) w)) ;;
  connected <- gets (fun a => Anki.actionExit_triggered (mw (world a))) ;;
  remaining <- lift (disconnect Qt.mw_close connected) ;;
  exec (on_world
          (fun w =>
             set_mw (set_actionExit_triggered
                       (remaining ++ [Qt.bound id Qt.m_onExit]) (mw w)) w)) ;;
  exec (on_world (fun w => set_mw (set_closeEvent Anki.repl_handler (mw w)) w)).

Definition __init__ : M unit :=
  config <- gets (fun a => config (world a)) ;;
  (if Py.dict_contains config "show_due"
      && match config !! "show_due" with
         | Some v => Py.eq_False v
         | None => false
         end
   then exec (on_self (set_showDueAmount false))
   else ret tt) ;;
  (match config !! "due_font_size" with
   | Some v => exec (on_self (set_dueFontSize v))
   | None => ret tt
   end) ;;
  exec (on_self (set_isAnkiFocused true)) ;;
  exec (on_self (set_isMinimizedToTray false)) ;;
  exec (fun a =>
          on_self (set_lastFocusedWidget (Anki.mw_widget (mw (world a)))) a) ;;
  exec (on_self (set_explicitlyHiddenWindows [])) ;;
  ti <- _createSystemTrayIcon ;;
  exec (on_self (set_trayIcon ti)) ;;
  exec (on_world (setQuitOnLastWindowClosed false)) ;;
  _configureMw ;;
  ti <- gets (fun a => trayIcon (self a)) ;;
  exec (on_world (trayIcon_show ti)) ;;
  exec _addHooks ;;
  hide_on_startup <- lift (Py.dict_getitem config "hide_on_startup") ;;
  if Py.truthy hide_on_startup then exec hideAll else ret tt.

(** The module: [mw] and the attribute [mw.systemTray]. *)
Record Process : Type := mkProcess {
  proc_world : World;
  systemTray : option AnkiSystemTray
}.

(** [AnkiSystemTray(mw)]: a new object is made and [__init__] runs on it. *)
Definition AnkiSystemTray_new (w : World)
  : Py.PyResult AnkiSystemTray * World :=
  let id := instances w in
  match __init__ (mkApp (class_attributes id) (set_instances (S id) w)) with
  | (inr _, a) => (inr (self a), world a)
  | (inl e, a) => (inl e, world a)
  end.

Definition minimizeToTrayInit (p : Process) : Py.PyResult unit * Process :=
  if hasattr (mw (proc_world p)) "trayIcon" then (inr tt, p)
  else
    match AnkiSystemTray_new (proc_world p) with
    | (inr obj, w) =>
        (inr tt, mkProcess (set_mw (mw_setattr "systemTray" (mw w)) w) (Some obj))
    | (inl e, w) => (inl e, mkProcess w (systemTray p))
    end.

End Methods.

(** ** The running application

    After [__init__] the add-on only reacts: the toolkit and the host call
    the methods that [_createSystemTrayIcon], [_configureMw] and
    [_addHooks] connected.  An event is one such call, or a change made
    from outside (the user, the toolkit, the scheduler). *)

Inductive CloseOrigin : Type :=
| FromExitAction
| FromCloseButton.

Inductive Event : Type :=
| TrayIconActivated (reason : Qt.ActivationReason)
| ShowAllTriggered
| CloseRequested (origin : CloseOrigin)
| FocusChanged (old now : option nat)
| ThemeDidChange
| StateDidChange
| OperationDidExecute
| WidgetsChanged (ws : list Qt.Widget)
| DeckTreeChanged (tree : list Anki.DeckTreeNode)
| NightModeChanged (night : bool).

Section Reactive.

Variable bool_eq_WindowMinimized : bool -> bool.

(** A close event reaches the main window either through the exit action,
    which is connected to [onExit], or through the close button. *)
Definition deliver_close (origin : CloseOrigin) (a : App) : App :=
  match origin with
  | FromExitAction => onExit a
  | FromCloseButton => QWidget_close a
  end.

(** An exception that leaves a slot or a hook is reported by the host; the
    application goes on with what was written so far. *)
Definition dispatch (e : Event) (a : App) : App :=
  match e with
  | TrayIconActivated reason => onActivated bool_eq_WindowMinimized reason a
  | ShowAllTriggered => showAll bool_eq_WindowMinimized a
  | CloseRequested origin => deliver_close origin a
  | FocusChanged old now => onFocusChanged old now a
  | ThemeDidChange => snd (updateSystemTrayIcon true a)
  | StateDidChange => snd (updateSystemTrayIcon false a)
  | OperationDidExecute => snd (updateSystemTrayIcon false a)
  | WidgetsChanged ws => on_world (set_widgets ws) a
  | DeckTreeChanged tree => on_world (set_deck_due_tree tree) a
  | NightModeChanged night => on_world (set_night_mode night) a
  end.

(** Events are handled one after the other for as long as the application
    runs. *)
Fixpoint run (events : list Event) (a : App) : App :=
  match events with
  | [] => a
  | e :: rest => if running (world a) then run rest (dispatch e a) else a
  end.

End Reactive.

(** The state [_configureMw] leaves the main window in: the replacement
    handler is installed and no exit was requested. *)
Definition installed (a : App) : Prop :=
  Anki.closeEvent (mw (world a)) = Anki.repl_handler
  /\ Anki.closeEventFromAction (mw (world a)) = false
  /\ running (world a) = true.

(** The add-on attached to the main window: [installed], and
    [mw.systemTray] assigned, as [minimizeToTrayInit] leaves it when
    [AnkiSystemTray(mw)] has returned. *)
Definition attached (a : App) : Prop :=
  installed a /\ hasattr (mw (world a)) "systemTray" = true.

(** The two Qt bindings the host has shipped with: members of
    [Qt.WindowState] that are integers ([True == 1] holds), and members of
    an enumeration class that equal no [bool].  The source names every
    member through its enumeration class
    ([Qt.WindowState.WindowMinimized], [QFont.Weight.Bold],
    [QSystemTrayIcon.ActivationReason.Trigger]), the way the second binding
    requires. *)
Definition int_valued_enum (b : bool) : bool := b.

Definition opaque_enum (b : bool) : bool := false.

(** *** Reading the log of widget calls *)

(** The calls made between two worlds, newest first. *)
Definition calls_since (before after : World) : list (nat * Qt.WidgetCall) :=
  take (length (calls after) - length (calls before)) (calls after).

(** [ref] was shown again: it received [show()] or [showNormal()]. *)
Definition shown_in (cs : list (nat * Qt.WidgetCall)) (ref : nat) : Prop :=
  (ref, Qt.CallShow) ∈ cs \/ (ref, Qt.CallShowNormal) ∈ cs.

(** A visible top-level window in the sense of [_visibleWindows]: an
    existing window that is not hidden and has children. *)
Definition visible_window (w : World) (ref : nat) : Prop :=
  exists wd,
    widgets w !! ref = Some wd
    /\ Qt.isdeleted wd = false
    /\ Qt.isWindow wd = true
    /\ Qt.isHidden wd = false
    /\ Qt.children wd <> [].

(** The badge an icon carries: the text drawn on it, if any. *)
Definition badge (ic : Qt.QIcon) : option string :=
  match Qt.painted ic with
  | [_; Qt.DrawText _ _ _ _ text] => Some text
  | _ => None
  end.

(** *** Reading badge texts *)

(** The decimal digit [d] as a character. *)
Definition digit (d : Z) : ascii := ascii_of_nat (48 + Z.to_nat d).

(** What the middle branch of [_formatNumber] is meant to produce. *)
Definition thousands_text (n : Z) : string :=
  String (digit (n / 1000)) (String "." (String (digit (n / 100 mod 10)) "k")).

Definition thousands_ok (n : Z) : bool :=
  match _formatNumber n with
  | inr s => String.eqb s (thousands_text n)
  | inl _ => false
  end.

(** The integers [start], [start + 1], ..., [len] of them. *)
Fixpoint zrange (start : Z) (len : nat) : list Z :=
  match len with
  | O => []
  | S len' => start :: zrange (start + 1) len'
  end.

(** The numbers of the middle branch of [_formatNumber]. *)
Definition thousands_range : list Z := zrange 1000 (Z.to_nat 9000).

(** The part of the world that calls on widgets leave alone. *)
Definition same_host (w w' : World) : Prop :=
  mw w' = mw w /\ running w' = running w /\ trayIcons w' = trayIcons w
  /\ instances w' = instances w.

(** The host firing [main_window_did_init] [n] times. *)
Definition fire (n : nat) (p : Process) : Process :=
  Nat.iter n (fun p => snd (minimizeToTrayInit p)) p.

(** *** Assertions on code that may raise *)

(** [m] keeps [I]: whatever [m] returns or raises, a state that satisfies
    [I] is left in a state that satisfies [I]. *)
Definition keeps {A : Type} (I : App -> Prop) (m : M A) : Prop :=
  forall a, I a -> I (snd (m a)).

(** [m], started where [P] holds, ends in [Q] when it returns. *)
Definition returns {A : Type} (P : App -> Prop) (m : M A)
  (Q : A -> App -> Prop) : Prop :=
  forall a, P a ->
    match m a with
    | (inr x, a') => Q x a'
    | (inl _, _) => True
    end.

(** What one turn of the loop of [_showWindows] does to the widget it
    visits. *)
Definition restore_widget (bool_eq_WindowMinimized : bool -> bool)
  (wd : Qt.Widget) : Qt.Widget :=
  if Qt.isdeleted wd then wd
  else if bool_eq_WindowMinimized (Qt.isMinimized wd) then Qt.showNormal wd
  else Qt.show (Qt.hide wd).

(** ** A concrete session

    The main window, a minimized browser window, a childless window of the
    toolkit, a dialog that is already hidden, and three child widgets.
    Five cards are due. *)

Module Sample.

Definition main_window : Qt.Widget :=
  Qt.mkWidget true false [4%nat] Qt.WindowNoState false.

Definition browser_minimized : Qt.Widget :=
  Qt.mkWidget true false [5%nat] Qt.WindowMinimized false.

Definition toolkit_internal : Qt.Widget :=
  Qt.mkWidget true false [] Qt.WindowNoState false.

(** A maximized window that was then minimized. *)
Definition browser_maximized_minimized : Qt.Widget :=
  Qt.mkWidget true false [5%nat]
    (Z.lor Qt.WindowMinimized Qt.WindowMaximized) false.

Definition hidden_dialog : Qt.Widget :=
  Qt.mkWidget true true [6%nat] Qt.WindowNoState false.

Definition child : Qt.Widget :=
  Qt.mkWidget false false [] Qt.WindowNoState false.

(** The main window before the add-on touches it: it has no attribute
    [trayIcon], its exit action is connected to [mw.close]. *)
Definition host_mw : Anki.MainWindow :=
  Anki.mkMainWindow 0 {[ "app"; "col"; "form"; "addonManager"; "closeEvent" ]}
    false Anki.AnkiQt_closeEvent_handler [Qt.mw_close] [].

Definition five_due : list Anki.DeckTreeNode := [Anki.mkNode 2 1 2].

Definition startup (cfg : gmap string Py.JVal) (plat : string) : World :=
  mkWorld
    [main_window; browser_minimized; toolkit_internal; hidden_dialog;
     child; child; child]
    [] [] true host_mw (Anki.mkHooks [] [] []) five_due cfg false plat true 0.

(** A complete configuration, and one without [hide_on_startup]. *)
Definition config_full : gmap string Py.JVal :=
  {[ "show_due" := Py.JBool true;
     "due_font_size" := Py.JInt 14;
     "hide_on_startup" := Py.JBool false ]}.

Definition config_without_hide_on_startup : gmap string Py.JVal :=
  {[ "show_due" := Py.JBool true; "due_font_size" := Py.JInt 14 ]}.

Definition config_only_hide_on_startup : gmap string Py.JVal :=
  {[ "hide_on_startup" := Py.JBool false ]}.

(** The process when the host fires [main_window_did_init]. *)
Definition process0 (cfg : gmap string Py.JVal) : Process :=
  mkProcess (startup cfg "linux") None.

(** The application once [minimizeToTrayInit] has run with the complete
    configuration. *)
Definition app_of (p : Process) : App :=
  mkApp (default (class_attributes 0) (systemTray p)) (proc_world p).

Definition initialized : App :=
  app_of (snd (minimizeToTrayInit (process0 config_full))).

End Sample.

(** ** Further notions used in statements *)

(** The scheduler answering with the tree [t]. *)
Definition with_tree (t : list Anki.DeckTreeNode) (a : App) : App :=
  on_world (set_deck_due_tree t) a.

(** A sequence of [focusChanged] signals, each with its [old] and [now]. *)
Definition focus_changes (changes : list (option nat * option nat)) (a : App)
  : App :=
  foldl (fun a c => onFocusChanged (fst c) (snd c) a) a changes.

(** The numbers 0 to 9999. *)
Definition below_ten_thousand : list Z := zrange 0 (Z.to_nat 10000).

Definition short_text_ok (n : Z) : bool :=
  match _formatNumber n with
  | inr s => (1 <=? String.length s)%nat && (String.length s <=? 4)%nat
  | inl _ => false
  end.

(** The icon that [_setSystemTrayIcon] builds for the count [n] when the
    font size is the number [px]. *)
Definition painted_icon (a : App) (n px : Z) : Qt.QIcon :=
  Qt.mkIcon "icons:anki.png"
    (if (n >? 0) && showDueAmount (self a)
     then [Qt.FillRoundedRect (Qt.mkRect 0 (32 - px) 32 px) 5 5
             (Qt.ThemeColor "CANVAS_ELEVATED" (night_mode (world a)));
           Qt.DrawText (Qt.mkRect 0 (32 - px) 32 px) px true
             (Qt.ThemeColor "STATE_LEARN" (night_mode (world a)))
             (match _formatNumber n with inr text => text | inl _ => "" end)]
     else []).

(** The state in which [__init__] starts in the session of [Sample], with
    the configuration [cfg]. *)
Definition fresh_app (cfg : gmap string Py.JVal) : App :=
  mkApp (class_attributes 0) (Sample.startup cfg "linux").

(** The session of [Sample] once initialized, with the browser window
    maximized and then minimized while the main window has the focus. *)
Definition maximized_browser_minimized : App :=
  on_world
    (set_widgets
       [Sample.main_window; Sample.browser_maximized_minimized;
        Sample.toolkit_internal; Sample.hidden_dialog;
        Sample.child; Sample.child; Sample.child])
    Sample.initialized.

(** The session of [Sample] after a firing of [main_window_did_init] whose
    [__init__] raised: the configuration has no [hide_on_startup]. *)
Definition half_initialized : App :=
  Sample.app_of
    (snd (minimizeToTrayInit
            (Sample.process0 Sample.config_without_hide_on_startup))).

(** [n] primary clicks on the tray icon. *)
Definition clicks (bool_eq_WindowMinimized : bool -> bool) (n : nat) (a : App)
  : App :=
  Nat.iter n (onActivated bool_eq_WindowMinimized Qt.Trigger) a.
(** * Properties *)

(** ** Badge text *)

Lemma in_zrange (len : nat) : forall start n,
  start <= n < start + Z.of_nat len -> In n (zrange start len).
Proof.
  induction len as [| len IH]; intros start n Hn; simpl.
  - lia.
  - destruct (Z.eq_dec start n) as [-> | Hne]; [now left | right].
    apply IH. lia.
Qed.

Lemma thousands_all : forallb thousands_ok thousands_range = true.
Proof. vm_cast_no_check (eq_refl true). Qed.

Lemma formatNumber_small (n : Z) :
  n < 1000 -> _formatNumber n = inr (Py.str n).
Proof.
  intros Hn. unfold _formatNumber.
  destruct (Z.ltb_spec n 1000); [reflexivity | lia].
Qed.

Lemma formatNumber_thousands (n : Z) :
  1000 <= n < 10000 -> _formatNumber n = inr (thousands_text n).
Proof.
  intros Hn.
  pose proof thousands_all as Hall.
  rewrite forallb_forall in Hall.
  assert (Hin : In n thousands_range) by (apply in_zrange; lia).
  apply Hall in Hin. unfold thousands_ok in Hin.
  destruct (_formatNumber n) as [e | s]; [discriminate |].
  apply String.eqb_eq in Hin. now subst.
Qed.

Lemma formatNumber_large (n : Z) :
  10000 <= n -> _formatNumber n = inr overflow_literal.
Proof.
  intros Hn. unfold _formatNumber.
  destruct (Z.ltb_spec n 1000); [lia |].
  destruct (Z.ltb_spec n 10000); [lia |].
  now rewrite andb_false_r.
Qed.

(** The indexing in the middle branch never leaves the string:
    [_formatNumber] returns for every number. *)
Lemma formatNumber_returns (n : Z) : exists s, _formatNumber n = inr s.
Proof.
  destruct (Z.lt_ge_cases n 1000) as [H | H].
  - eexists. now apply formatNumber_small.
  - destruct (Z.lt_ge_cases n 10000) as [H' | H'].
    + eexists. apply formatNumber_thousands. lia.
    + eexists. now apply formatNumber_large.
Qed.

Example formatNumber_7 : _formatNumber 7 = inr "7".
Proof. reflexivity. Qed.

Example formatNumber_0 : _formatNumber 0 = inr "0".
Proof. reflexivity. Qed.

Example formatNumber_999 : _formatNumber 999 = inr "999".
Proof. reflexivity. Qed.

Example formatNumber_1234 : _formatNumber 1234 = inr "1.2k".
Proof. reflexivity. Qed.

Example formatNumber_9999 : _formatNumber 9999 = inr "9.9k".
Proof. reflexivity. Qed.

(** C4.  For a due-count of 10000 and more the badge text is meant to be
    the infinity glyph.  The literal in the source is a different string:
    at 10000 [_formatNumber] returns the six bytes C3 A2 CB 86 C5 BE (the
    characters U+00E2, U+02C6, U+017E), not the glyph U+221E (bytes
    E2 88 9E). *)
Theorem C4_formatNumber_10000_is_not_the_infinity_glyph :
  _formatNumber 10000 = inr overflow_literal
  /\ map nat_of_ascii (list_ascii_of_string overflow_literal)
     = [195; 162; 203; 134; 197; 190]%nat
  /\ map nat_of_ascii (list_ascii_of_string infinity_glyph)
     = [226; 136; 158]%nat
  /\ _formatNumber 10000 <> inr infinity_glyph.
Proof.
  repeat split; try reflexivity. discriminate.
Qed.

(** ** Painting the icon *)

Lemma createReviewsIcon_int (a : App) (text : string) (b : bool) (px : Z) :
  Py.as_int (dueFontSize (self a)) = inr px ->
  _createReviewsIcon a text b
  = inr (Qt.mkIcon "icons:anki.png"
           (if b
            then [Qt.FillRoundedRect (Qt.mkRect 0 (32 - px) 32 px) 5 5
                    (Qt.ThemeColor "CANVAS_ELEVATED" (night_mode (world a)));
                  Qt.DrawText (Qt.mkRect 0 (32 - px) 32 px) px true
                    (Qt.ThemeColor "STATE_LEARN" (night_mode (world a))) text]
            else [])).
Proof. intros H. unfold _createReviewsIcon. now rewrite H. Qed.

Lemma setSystemTrayIcon_eq (a : App) (ti : nat) (n : Z) (text : string)
  (ic : Qt.QIcon) :
  _formatNumber n = inr text ->
  _createReviewsIcon a text ((n >? 0) && showDueAmount (self a)) = inr ic ->
  _setSystemTrayIcon ti n a = (inr tt, on_world (setIcon ti ic) a).
Proof.
  intros Hf Hic.
  unfold _setSystemTrayIcon, _getCardsDueDisplayNumber, bind, lift, gets, exec.
  rewrite Hf. simpl. now rewrite Hic.
Qed.

(** With an integer font size the icon is always set, with a badge when
    one is due. *)
Lemma setSystemTrayIcon_draws (a : App) (ti : nat) (n px : Z) :
  Py.as_int (dueFontSize (self a)) = inr px ->
  exists text ic,
    _formatNumber n = inr text
    /\ _setSystemTrayIcon ti n a = (inr tt, on_world (setIcon ti ic) a)
    /\ Qt.pixmap ic = "icons:anki.png"
    /\ badge ic
       = (if (n >? 0) && showDueAmount (self a) then Some text else None)
    /\ (Qt.painted ic = [] <-> (n >? 0) && showDueAmount (self a) = false).
Proof.
  intros Hpx.
  destruct (formatNumber_returns n) as [text Htext].
  pose proof (createReviewsIcon_int a text
                ((n >? 0) && showDueAmount (self a)) px Hpx) as Hic.
  eexists text, _. split; [exact Htext |].
  split; [eapply setSystemTrayIcon_eq; eassumption |].
  split; [reflexivity |].
  destruct ((n >? 0) && showDueAmount (self a)); simpl; split;
    try reflexivity; split; congruence.
Qed.

(** C7.  A redraw sets the base icon and draws the badge on it exactly when
    the due-count is positive and [showDueAmount] is on; the badge then
    carries the formatted count.  (The font size has to be a number for the
    icon to be built at all.) *)
Theorem C7_badge_iff_positive_count_and_show_due
  (a : App) (ti : nat) (n px : Z) :
  Py.as_int (dueFontSize (self a)) = inr px ->
  exists ic,
    _setSystemTrayIcon ti n a = (inr tt, on_world (setIcon ti ic) a)
    /\ Qt.pixmap ic = "icons:anki.png"
    /\ (Qt.painted ic <> [] <-> n > 0 /\ showDueAmount (self a) = true)
    /\ (n > 0 /\ showDueAmount (self a) = true ->
        exists text, _formatNumber n = inr text /\ badge ic = Some text)
    /\ (n <= 0 \/ showDueAmount (self a) = false ->
        ic = Qt.mkIcon "icons:anki.png" []).
Proof.
  intros Hpx.
  destruct (setSystemTrayIcon_draws a ti n px Hpx)
    as (text & ic & Htext & Hset & Hpix & Hbadge & Hnone).
  exists ic. split; [exact Hset |]. split; [exact Hpix |].
  assert (Hcond : (n >? 0) && showDueAmount (self a) = true
                  <-> n > 0 /\ showDueAmount (self a) = true).
  { rewrite andb_true_iff. rewrite Z.gtb_gt. reflexivity. }
  split; [| split].
  - rewrite <- Hcond. rewrite Hnone.
    destruct ((n >? 0) && showDueAmount (self a)); split; congruence.
  - intros H. apply Hcond in H. rewrite H in Hbadge. eauto.
  - intros H.
    assert (Hf : (n >? 0) && showDueAmount (self a) = false).
    { destruct H as [H | H].
      - destruct (Z.gtb_spec n 0); [lia | reflexivity].
      - rewrite H. apply andb_false_r. }
    apply Hnone in Hf. destruct ic as [pm ps]. simpl in *. now subst.
Qed.

Lemma C7_badge_iff_positive_count_and_show_due_witness :
  exists ic,
    _setSystemTrayIcon 0 7 Sample.initialized
    = (inr tt, on_world (setIcon 0 ic) Sample.initialized)
    /\ Qt.pixmap ic = "icons:anki.png"
    /\ (Qt.painted ic <> []
        <-> 7 > 0 /\ showDueAmount (self Sample.initialized) = true)
    /\ (7 > 0 /\ showDueAmount (self Sample.initialized) = true ->
        exists text, _formatNumber 7 = inr text /\ badge ic = Some text)
    /\ (7 <= 0 \/ showDueAmount (self Sample.initialized) = false ->
        ic = Qt.mkIcon "icons:anki.png" []).
Proof.
  apply (C7_badge_iff_positive_count_and_show_due Sample.initialized 0 7 14).
  reflexivity.
Defined.

Example badge_7 :
  tray_image (world (snd (_setSystemTrayIcon 0 7 Sample.initialized))) 0
  ≫= badge = Some "7".
Proof. vm_compute. reflexivity. Qed.

Example badge_1234 :
  tray_image (world (snd (_setSystemTrayIcon 0 1234 Sample.initialized))) 0
  ≫= badge = Some "1.2k".
Proof. reflexivity. Qed.

Example no_badge_for_zero :
  tray_image (world (snd (_setSystemTrayIcon 0 0 Sample.initialized))) 0
  = Some (Qt.mkIcon "icons:anki.png" []).
Proof. reflexivity. Qed.

Example no_badge_when_show_due_is_off :
  tray_image
    (world (snd (_setSystemTrayIcon 0 50
                   (on_self (set_showDueAmount false) Sample.initialized)))) 0
  = Some (Qt.mkIcon "icons:anki.png" []).
Proof. reflexivity. Qed.

(** ** Refreshing the icon *)

Lemma updateSystemTrayIcon_forced (a : App) :
  updateSystemTrayIcon true a
  = _setSystemTrayIcon (trayIcon (self a)) (_getAmountOfCardsDue a)
      (on_self (set_displayedNumberOfCardsDue (_getAmountOfCardsDue a)) a).
Proof.
  unfold updateSystemTrayIcon, bind, gets, exec. simpl.
  rewrite orb_true_r. reflexivity.
Qed.

Lemma updateSystemTrayIcon_unchanged (a : App) :
  showDueAmount (self a) = true ->
  _getAmountOfCardsDue a = _displayedNumberOfCardsDue (self a) ->
  updateSystemTrayIcon false a = (inr tt, a).
Proof.
  intros Hshow Hsame.
  unfold updateSystemTrayIcon, bind, gets, exec, ret. simpl.
  rewrite Hshow, Hsame, Z.eqb_refl. reflexivity.
Qed.


(** The session of [Sample] once the object has painted the five due
    cards itself. *)
Example update_unchanged_is_silent :
  let a := snd (updateSystemTrayIcon false Sample.initialized) in
  updateSystemTrayIcon false a = (inr tt, a)
  /\ _displayedNumberOfCardsDue (self a) = 5.
Proof. vm_compute. split; reflexivity. Qed.

Example update_forced_repaints :
  let a := snd (updateSystemTrayIcon true
                  (on_world (set_deck_due_tree [Anki.mkNode 1000 200 34])
                     Sample.initialized)) in
  tray_image (world a) 0 ≫= badge = Some "1.2k"
  /\ _displayedNumberOfCardsDue (self a) = 1234.
Proof. vm_compute. split; reflexivity. Qed.

(** Whenever [updateSystemTrayIcon] paints, the cached count is the count
    it painted. *)
Lemma updateSystemTrayIcon_caches_what_it_paints
  (a : App) (force : bool) (px : Z) :
  Py.as_int (dueFontSize (self a)) = inr px ->
  snd (updateSystemTrayIcon force a) <> a ->
  _displayedNumberOfCardsDue (self (snd (updateSystemTrayIcon force a)))
  = _getAmountOfCardsDue a.
Proof.
  intros Hpx Hchanged.
  unfold updateSystemTrayIcon, bind, gets, exec, ret in *. simpl in *.
  destruct (showDueAmount (self a)
            && negb (_getAmountOfCardsDue a =? _displayedNumberOfCardsDue (self a))
            || force).
  - set (n := _getAmountOfCardsDue a) in *.
    destruct (setSystemTrayIcon_draws
                (on_self (set_displayedNumberOfCardsDue n) a)
                (trayIcon (self a)) n px Hpx)
      as (text & ic & _ & Hset & _).
    simpl in Hset. rewrite Hset. reflexivity.
  - now simpl in Hchanged.
Qed.

(** C10.  The cached count is meant to be the count that the icon shows.
    [_createSystemTrayIcon] paints the icon without storing the count: in
    the session of [Sample], right after initialization the icon shows the
    badge 5 while the cached count is still the class default 0.  When the
    due-count then drops to 0, the non-forced refresh compares 0 with the
    cached 0, paints nothing, and the badge 5 stays. *)
Theorem C10_cached_count_differs_from_painted_count_after_init :
  let a := Sample.initialized in
  let a' := snd (updateSystemTrayIcon false
                   (on_world (set_deck_due_tree []) a)) in
  _getAmountOfCardsDue a = 5
  /\ tray_image (world a) (trayIcon (self a)) ≫= badge = Some "5"
  /\ _displayedNumberOfCardsDue (self a) = 0
  /\ _getAmountOfCardsDue a' = 0
  /\ tray_image (world a') (trayIcon (self a')) ≫= badge = Some "5".
Proof. vm_compute. repeat split. Qed.

(** ** Initialization *)

(** C8.  Initialization is meant to go through when a recognized option is
    missing.  [show_due] and [due_font_size] are looked up only when
    present, but [hide_on_startup] is read with [config[...]]: with a
    configuration that lacks it, [__init__] raises [KeyError], and so does
    [minimizeToTrayInit], which leaves [mw.systemTray] unset. *)
Theorem C8_init_raises_KeyError_without_hide_on_startup :
  let p := Sample.process0 Sample.config_without_hide_on_startup in
  fst (__init__ (mkApp (class_attributes 0) (proc_world p)))
  = inl (Py.KeyError "hide_on_startup")
  /\ fst (minimizeToTrayInit p) = inl (Py.KeyError "hide_on_startup")
  /\ systemTray (snd (minimizeToTrayInit p)) = None.
Proof. vm_compute. repeat split. Qed.

(** The two guarded options do fall back to the attributes of the class. *)
Example init_defaults_for_show_due_and_font_size :
  let r := minimizeToTrayInit
             (Sample.process0 Sample.config_only_hide_on_startup) in
  fst r = inr tt
  /\ (showDueAmount <$> systemTray (snd r)) = Some true
  /\ (dueFontSize <$> systemTray (snd r)) = Some (Py.JInt 16).
Proof. vm_compute. repeat split. Qed.

(** C9.  The guard of [minimizeToTrayInit] asks for an attribute [trayIcon]
    of the main window, but the function stores the object as
    [mw.systemTray]: after the first firing [hasattr(mw, "trayIcon")] is
    still false, and the second firing makes a second object with a second
    tray icon (its [__init__] then fails in [_configureMw], where
    [mw.close] is no longer connected to the exit action). *)
Theorem C9_second_firing_constructs_a_second_object :
  let p0 := Sample.process0 Sample.config_full in
  let p1 := snd (minimizeToTrayInit p0) in
  let p2 := snd (minimizeToTrayInit p1) in
  fst (minimizeToTrayInit p0) = inr tt
  /\ instances (proc_world p1) = 1%nat
  /\ length (trayIcons (proc_world p1)) = 1%nat
  /\ hasattr (mw (proc_world p1)) "systemTray" = true
  /\ hasattr (mw (proc_world p1)) "trayIcon" = false
  /\ instances (proc_world p2) = 2%nat
  /\ length (trayIcons (proc_world p2)) = 2%nat
  /\ p2 <> p1.
Proof.
  cbv zeta. repeat split; try (vm_compute; reflexivity).
  intros H. apply (f_equal (fun p => instances (proc_world p))) in H.
  vm_compute in H. discriminate.
Qed.

(** ** Windows *)

(** *** Calls on widgets *)

Lemma lookup_widget_call (ref r : nat) (c : Qt.WidgetCall) (w : World) :
  widgets (widget_call ref c w) !! r
  = if decide (ref = r) then apply_call c <$> widgets w !! r
    else widgets w !! r.
Proof.
  unfold widget_call. simpl. destruct (decide (ref = r)) as [-> | Hne].
  - apply list_lookup_alter_eq.
  - now apply list_lookup_alter_ne.
Qed.

Lemma the_widget_lookup (w : World) (ref : nat) (wd : Qt.Widget) :
  widgets w !! ref = Some wd -> the_widget w ref = wd.
Proof. intros H. unfold the_widget. now rewrite H. Qed.

Lemma same_host_refl (w : World) : same_host w w.
Proof. now repeat split. Qed.

Lemma same_host_trans (w1 w2 w3 : World) :
  same_host w1 w2 -> same_host w2 w3 -> same_host w1 w3.
Proof.
  intros (H1 & H2 & H3 & H4) (H5 & H6 & H7 & H8). repeat split; congruence.
Qed.

Lemma same_host_widget_call (ref : nat) (c : Qt.WidgetCall) (w : World) :
  same_host w (widget_call ref c w).
Proof. now repeat split. Qed.

Lemma same_host_foldl (step : World -> nat -> World) :
  (forall w ref, same_host w (step w ref)) ->
  forall l w, same_host w (foldl step w l).
Proof.
  intros Hstep l. induction l as [| x l IH]; intros w; simpl.
  - apply same_host_refl.
  - eapply same_host_trans; [apply Hstep | apply IH].
Qed.

(** A loop that changes, at every turn, only the widget it visits. *)
Lemma lookup_foldl_pointwise (step : World -> nat -> World)
  (g : Qt.Widget -> Qt.Widget) :
  (forall w ref r,
      widgets (step w ref) !! r
      = if decide (ref = r) then g <$> widgets w !! r else widgets w !! r) ->
  forall (l : list nat) w r,
    NoDup l ->
    widgets (foldl step w l) !! r
    = if decide (r ∈ l) then g <$> widgets w !! r else widgets w !! r.
Proof.
  intros Hstep l. induction l as [| x l IH]; intros w r Hnd; simpl.
  - destruct (decide (r ∈ [])) as [Hin | _]; [| reflexivity].
    now apply elem_of_nil in Hin.
  - apply NoDup_cons in Hnd as [Hx Hnd].
    rewrite IH by assumption. rewrite Hstep.
    destruct (decide (x = r)) as [Heq | Hne].
    + subst r. destruct (decide (x ∈ l)); [contradiction |].
      destruct (decide (x ∈ x :: l)) as [_ | Hxl]; [reflexivity |].
      exfalso. apply Hxl. left.
    + destruct (decide (r ∈ l)) as [Hl | Hl];
        destruct (decide (r ∈ x :: l)) as [Hxl | Hxl]; try reflexivity.
      * exfalso. apply Hxl. now right.
      * apply elem_of_cons in Hxl as [-> | Hxl]; contradiction.
Qed.

Lemma lookup_foldl_outside (step : World -> nat -> World) :
  (forall w ref r, ref <> r -> widgets (step w ref) !! r = widgets w !! r) ->
  forall (l : list nat) w r,
    r ∉ l -> widgets (foldl step w l) !! r = widgets w !! r.
Proof.
  intros Hstep l. induction l as [| x l IH]; intros w r Hr; simpl.
  - reflexivity.
  - apply not_elem_of_cons in Hr as [Hne Hr].
    rewrite IH by assumption. apply Hstep. congruence.
Qed.

(** *** Visible windows *)

Lemma elem_of_topLevelWidgets (w : World) (ref : nat) :
  ref ∈ QApplication_topLevelWidgets w
  <-> exists wd, widgets w !! ref = Some wd
                 /\ Qt.isdeleted wd = false /\ Qt.isWindow wd = true.
Proof.
  unfold QApplication_topLevelWidgets, sip_isdeleted.
  rewrite list_elem_of_In, filter_In, in_seq, andb_true_iff, negb_true_iff.
  split.
  - intros [[_ Hlt] [Hd Hw]]. simpl in Hlt.
    destruct (lookup_lt_is_Some_2 (widgets w) ref Hlt) as [wd Hwd].
    rewrite (the_widget_lookup _ _ _ Hwd) in Hd, Hw. eauto.
  - intros (wd & Hwd & Hd & Hw).
    rewrite (the_widget_lookup _ _ _ Hwd).
    apply lookup_lt_Some in Hwd. repeat split; auto; simpl; lia.
Qed.

Lemma elem_of_visibleWindows (w : World) (ref : nat) :
  ref ∈ _visibleWindows w <-> visible_window w ref.
Proof.
  unfold _visibleWindows, visible_window.
  rewrite list_elem_of_In, filter_In, <- list_elem_of_In,
    elem_of_topLevelWidgets.
  split.
  - intros [(wd & Hwd & Hd & Hw) Hvis].
    rewrite (the_widget_lookup _ _ _ Hwd) in Hvis.
    apply andb_true_iff in Hvis as [Hvis Hch].
    apply andb_true_iff in Hvis as [_ Hhid].
    apply negb_true_iff in Hhid. apply negb_true_iff in Hch.
    apply bool_decide_eq_false in Hch.
    exists wd. auto.
  - intros (wd & Hwd & Hd & Hw & Hhid & Hch).
    split; [eauto |].
    rewrite (the_widget_lookup _ _ _ Hwd), Hw, Hhid. simpl.
    apply negb_true_iff. now apply bool_decide_eq_false.
Qed.

Lemma NoDup_visibleWindows (w : World) : NoDup (_visibleWindows w).
Proof.
  unfold _visibleWindows, QApplication_topLevelWidgets.
  apply NoDup_ListNoDup, List.NoDup_filter, List.NoDup_filter, List.seq_NoDup.
Qed.

Lemma visible_window_not_deleted (w : World) (ref : nat) :
  visible_window w ref -> sip_isdeleted w ref = false.
Proof.
  intros (wd & Hwd & Hd & _). unfold sip_isdeleted.
  now rewrite (the_widget_lookup _ _ _ Hwd).
Qed.

(** *** The log of calls *)

Lemma calls_since_app (before after : World)
  (new : list (nat * Qt.WidgetCall)) :
  calls after = new ++ calls before -> calls_since before after = new.
Proof.
  intros H. unfold calls_since. rewrite H, length_app.
  replace (List.length new + List.length (calls before)
           - List.length (calls before))%nat
    with (List.length new) by lia.
  apply take_app_length.
Qed.

Lemma shown_in_app (l1 l2 : list (nat * Qt.WidgetCall)) (r : nat) :
  shown_in (l1 ++ l2) r <-> shown_in l1 r \/ shown_in l2 r.
Proof. unfold shown_in. rewrite !elem_of_app. tauto. Qed.

Lemma shown_in_nil (r : nat) : ~ shown_in [] r.
Proof. intros [H | H]; now apply elem_of_nil in H. Qed.

Lemma sip_isdeleted_lookup (w : World) (r : nat) :
  sip_isdeleted w r = from_option Qt.isdeleted true (widgets w !! r).
Proof.
  unfold sip_isdeleted, the_widget. now destruct (widgets w !! r).
Qed.

(** *** [_showWindows] *)

Section ShowWindows.

Variable b : bool -> bool.

Lemma restore_widget_isdeleted (wd : Qt.Widget) :
  Qt.isdeleted (restore_widget b wd) = Qt.isdeleted wd.
Proof.
  unfold restore_widget. destruct (Qt.isdeleted wd) eqn:E; [exact E |].
  now destruct (b (Qt.isMinimized wd)).
Qed.

Lemma lookup_showWindows_body (w : World) (ref r : nat) :
  widgets (_showWindows_body b w ref) !! r
  = if decide (ref = r) then restore_widget b <$> widgets w !! r
    else widgets w !! r.
Proof.
  unfold _showWindows_body. rewrite sip_isdeleted_lookup.
  destruct (widgets w !! ref) as [wd |] eqn:Hwd; simpl.
  - rewrite (the_widget_lookup _ _ _ Hwd).
    unfold restore_widget.
    destruct (Qt.isdeleted wd) eqn:Hd.
    + destruct (decide (ref = r)) as [<- | _]; [| reflexivity].
      rewrite Hwd. simpl. now rewrite Hd.
    + destruct (b (Qt.isMinimized wd)) eqn:Hb;
        rewrite !lookup_widget_call;
        destruct (decide (ref = r)) as [<- | _]; try reflexivity;
        rewrite Hwd; simpl; now rewrite Hd, Hb.
  - destruct (decide (ref = r)) as [<- | _]; [| reflexivity].
    now rewrite Hwd.
Qed.

Lemma sip_isdeleted_showWindows_body (w : World) (ref r : nat) :
  sip_isdeleted (_showWindows_body b w ref) r = sip_isdeleted w r.
Proof.
  rewrite !sip_isdeleted_lookup, lookup_showWindows_body.
  destruct (decide (ref = r)); [| reflexivity].
  destruct (widgets w !! r); simpl; [| reflexivity].
  apply restore_widget_isdeleted.
Qed.

Lemma same_host_showWindows (l : list nat) (w : World) :
  same_host w (_showWindows b l w).
Proof.
  apply same_host_foldl. clear. intros w ref. unfold _showWindows_body.
  destruct (sip_isdeleted w ref); [apply same_host_refl |].
  now destruct (b (Qt.isMinimized (the_widget w ref))).
Qed.

Lemma calls_showWindows_body (w : World) (ref : nat) :
  exists new,
    calls (_showWindows_body b w ref) = new ++ calls w
    /\ forall r, shown_in new r <-> r = ref /\ sip_isdeleted w ref = false.
Proof.
  unfold _showWindows_body.
  destruct (sip_isdeleted w ref) eqn:Hd.
  - exists []. split; [reflexivity |]. intros r. split.
    + intros H. now apply shown_in_nil in H.
    + intros [_ H]. discriminate.
  - destruct (b (Qt.isMinimized (the_widget w ref))).
    + exists [(ref, Qt.CallRaise); (ref, Qt.CallShowNormal)].
      split; [reflexivity |]. intros r. unfold shown_in.
      rewrite !elem_of_cons, !elem_of_nil. split.
      * intros [[H | [H | []]] | [H | [H | []]]]; inversion H; auto.
      * intros [-> _]. right. right. now left.
    + exists [(ref, Qt.CallRaise); (ref, Qt.CallShow); (ref, Qt.CallHide)].
      split; [reflexivity |]. intros r. unfold shown_in.
      rewrite !elem_of_cons, !elem_of_nil. split.
      * intros [[H | [H | [H | []]]] | [H | [H | [H | []]]]];
          inversion H; auto.
      * intros [-> _]. left. right. now left.
Qed.

(** The windows that [_showWindows] shows again are the members of its
    argument that still exist. *)
Lemma calls_showWindows (l : list nat) : forall w,
  exists new,
    calls (_showWindows b l w) = new ++ calls w
    /\ forall r, shown_in new r <-> r ∈ l /\ sip_isdeleted w r = false.
Proof.
  unfold _showWindows.
  induction l as [| x l IH]; intros w; simpl.
  - exists []. split; [reflexivity |]. intros r. split.
    + intros H. now apply shown_in_nil in H.
    + intros [H _]. now apply elem_of_nil in H.
  - destruct (calls_showWindows_body w x) as (new1 & Hc1 & Hs1).
    destruct (IH (_showWindows_body b w x)) as (new2 & Hc2 & Hs2).
    exists (new2 ++ new1). split.
    + rewrite Hc2, Hc1. now rewrite app_assoc.
    + intros r. rewrite shown_in_app, Hs1, Hs2, elem_of_cons.
      rewrite sip_isdeleted_showWindows_body. split.
      * intros [[H1 H2] | [-> H]]; auto.
      * intros [[-> | H1] H2]; auto.
Qed.

Lemma lookup_showWindows (l : list nat) (w : World) (r : nat) :
  NoDup l ->
  widgets (_showWindows b l w) !! r
  = if decide (r ∈ l) then restore_widget b <$> widgets w !! r
    else widgets w !! r.
Proof.
  apply lookup_foldl_pointwise. apply lookup_showWindows_body.
Qed.

Lemma lookup_showWindows_outside (l : list nat) (w : World) (r : nat) :
  r ∉ l -> widgets (_showWindows b l w) !! r = widgets w !! r.
Proof.
  apply lookup_foldl_outside. clear. intros w ref r Hne.
  rewrite lookup_showWindows_body. now destruct (decide (ref = r)).
Qed.

(** What [showAll] adds to the log after [_showWindows]: at most
    [raise_()] and [activateWindow()] on the last focused widget. *)
Lemma showAll_world (a : App) :
  let windows :=
    if isMinimizedToTray (self a) then explicitlyHiddenWindows (self a)
    else _visibleWindows (world a) in
  let w1 := _showWindows b windows (world a) in
  widgets (world (showAll b a)) = widgets w1
  /\ same_host (world a) (world (showAll b a))
  /\ exists extra,
       calls (world (showAll b a)) = extra ++ calls w1
       /\ forall r, ~ shown_in extra r.
Proof.
  unfold showAll. simpl.
  set (w1 := if isMinimizedToTray (self a)
             then _showWindows b (explicitlyHiddenWindows (self a)) (world a)
             else _showWindows b (_visibleWindows (world a)) (world a)).
  assert (Hw1 : w1 = _showWindows b
                       (if isMinimizedToTray (self a)
                        then explicitlyHiddenWindows (self a)
                        else _visibleWindows (world a)) (world a)).
  { subst w1. now destruct (isMinimizedToTray (self a)). }
  rewrite <- Hw1.
  assert (Hhost : same_host (world a) w1).
  { rewrite Hw1. apply same_host_showWindows. }
  destruct (negb (sip_isdeleted w1 (lastFocusedWidget (self a)))).
  - split; [| split].
    + simpl. rewrite !list_alter_id; auto.
    + eapply same_host_trans; [exact Hhost |]. now repeat split.
    + exists [(lastFocusedWidget (self a), Qt.CallActivateWindow);
              (lastFocusedWidget (self a), Qt.CallRaise)].
      split; [reflexivity |]. intros r. unfold shown_in.
      rewrite !elem_of_cons, !elem_of_nil.
      intros [[H | [H | []]] | [H | [H | []]]]; inversion H.
  - split; [reflexivity | split; [exact Hhost |]].
    exists []. split; [reflexivity | apply shown_in_nil].
Qed.

End ShowWindows.

(** *** [hideAll] *)

Lemma lookup_hideAll (a : App) (r : nat) :
  widgets (world (hideAll a)) !! r
  = if decide (r ∈ _visibleWindows (world a))
    then Qt.hide <$> widgets (world a) !! r
    else widgets (world a) !! r.
Proof.
  unfold hideAll. simpl.
  apply (lookup_foldl_pointwise
           (fun w ref => widget_call ref Qt.CallHide w) Qt.hide).
  - intros w ref r'. apply lookup_widget_call.
  - apply NoDup_visibleWindows.
Qed.

Lemma same_host_hideAll (a : App) : same_host (world a) (world (hideAll a)).
Proof.
  unfold hideAll. simpl. apply same_host_foldl.
  intros w ref. apply same_host_widget_call.
Qed.

(** After [hideAll] no window is visible any more. *)
Lemma visibleWindows_hideAll (a : App) : _visibleWindows (world (hideAll a)) = [].
Proof.
  apply elem_of_nil_inv. intros r Hr.
  apply elem_of_visibleWindows in Hr as (wd & Hwd & Hd & Hw & Hhid & Hch).
  rewrite lookup_hideAll in Hwd.
  destruct (decide (r ∈ _visibleWindows (world a))) as [Hin | Hout].
  - destruct (widgets (world a) !! r) as [wd0 |]; [| discriminate].
    simpl in Hwd. inversion Hwd. subst wd. discriminate.
  - apply Hout. apply elem_of_visibleWindows. exists wd. auto.
Qed.

Lemma anyWindowMinimized_true (w : World) :
  _anyWindowMinimized w = true
  <-> exists ref,
        visible_window w ref
        /\ Qt.windowState (the_widget w ref) = Qt.WindowMinimized.
Proof.
  unfold _anyWindowMinimized. rewrite existsb_exists.
  split; intros (ref & Hin & Hmin); exists ref.
  - apply list_elem_of_In, elem_of_visibleWindows in Hin.
    now apply Z.eqb_eq in Hmin.
  - split; [now apply list_elem_of_In, elem_of_visibleWindows |].
    now apply Z.eqb_eq.
Qed.

(** A window whose state is exactly [WindowMinimized] is minimized; the
    converse fails for a window that carries a second flag. *)
Lemma isMinimized_exactly (wd : Qt.Widget) :
  Qt.windowState wd = Qt.WindowMinimized -> Qt.isMinimized wd = true.
Proof. intros H. unfold Qt.isMinimized. now rewrite H. Qed.

Lemma anyWindowMinimized_false (w : World) :
  (forall ref,
      visible_window w ref -> Qt.isMinimized (the_widget w ref) = false) ->
  _anyWindowMinimized w = false.
Proof.
  intros Hnone. destruct (_anyWindowMinimized w) eqn:E; [| reflexivity].
  apply anyWindowMinimized_true in E as (ref & Hvis & Hmin).
  apply isMinimized_exactly in Hmin. rewrite (Hnone ref Hvis) in Hmin.
  discriminate.
Qed.

(** *** Tray activation *)

(** Which of [showAll] and [hideAll] a tray activation runs. *)
Lemma onActivated_runs
  (b : bool -> bool) (reason : Qt.ActivationReason) (a : App) :
  (reason <> Qt.Trigger -> onActivated b reason a = a)
  /\ (reason = Qt.Trigger ->
      (isAnkiFocused (self a) = false
       \/ (exists ref,
             visible_window (world a) ref
             /\ Qt.windowState (the_widget (world a) ref) = Qt.WindowMinimized)
       \/ isMinimizedToTray (self a) = true) ->
      onActivated b reason a = showAll b a)
  /\ (reason = Qt.Trigger ->
      isAnkiFocused (self a) = true ->
      (forall ref,
          visible_window (world a) ref ->
          Qt.windowState (the_widget (world a) ref) <> Qt.WindowMinimized) ->
      isMinimizedToTray (self a) = false ->
      onActivated b reason a
      = if String.prefix "win32" (platform (world a)) then a else hideAll a).
Proof.
  split; [| split].
  - intros Hr. unfold onActivated. destruct reason; try reflexivity.
    now contradiction Hr.
  - intros -> Hcond. unfold onActivated. simpl.
    assert (H : negb (isAnkiFocused (self a))
                || _anyWindowMinimized (world a)
                || isMinimizedToTray (self a) = true).
    { destruct Hcond as [H | [H | H]].
      - now rewrite H.
      - apply anyWindowMinimized_true in H. rewrite H.
        now rewrite orb_true_r.
      - rewrite H. now rewrite orb_true_r. }
    now rewrite H.
  - intros -> Hf Hnone Hflag. unfold onActivated. simpl.
    assert (Hany : _anyWindowMinimized (world a) = false).
    { destruct (_anyWindowMinimized (world a)) eqn:E; [| reflexivity].
      apply anyWindowMinimized_true in E as (ref & Hv & Hm).
      now apply Hnone in Hv. }
    rewrite Hf, Hany, Hflag. simpl.
    now destruct (String.prefix "win32" (platform (world a))).
Qed.

(** C2.  The main window has the focus, nothing is hidden to the tray, the
    platform is not [win32], and the browser window, which was maximized,
    is minimized: its state is [WindowMinimized | WindowMaximized].  A
    visible window is minimized, so the docstring of [onActivated] and the
    claim have a primary click show all windows.  [_anyWindowMinimized]
    compares the whole state with [WindowMinimized] and answers [False]:
    whatever the binding, the click runs [hideAll], every window ends
    hidden, none is shown and [isMinimizedToTray] is set. *)
Theorem C2_tray_click_hides_while_a_maximized_window_is_minimized
  (b : bool -> bool) :
  let a := maximized_browser_minimized in
  let a' := onActivated b Qt.Trigger a in
  (isAnkiFocused (self a) = true
   /\ isMinimizedToTray (self a) = false
   /\ String.prefix "win32" (platform (world a)) = false
   /\ visible_window (world a) 1
   /\ Qt.windowState (the_widget (world a) 1)
      = Z.lor Qt.WindowMinimized Qt.WindowMaximized
   /\ Qt.isMinimized (the_widget (world a) 1) = true
   /\ _anyWindowMinimized (world a) = false)
  /\ a' = hideAll a
  /\ _visibleWindows (world a') = []
  /\ Qt.isHidden (the_widget (world a') 0) = true
  /\ Qt.isHidden (the_widget (world a') 1) = true
  /\ (forall ref, ~ shown_in (calls_since (world a) (world a')) ref)
  /\ isMinimizedToTray (self a') = true.
Proof.
  intros a a'.
  assert (Ha' : a' = hideAll a) by (vm_compute; reflexivity).
  rewrite Ha'. clear Ha' a'.
  split.
  { repeat split; try (vm_compute; reflexivity).
    apply elem_of_visibleWindows. vm_compute.
    apply list_elem_of_In. right. now left. }
  split; [reflexivity |].
  split; [apply visibleWindows_hideAll |].
  split; [vm_compute; reflexivity |].
  split; [vm_compute; reflexivity |].
  split; [| reflexivity].
  intros ref [Hin | Hin]; apply list_elem_of_In in Hin; vm_compute in Hin;
    decompose [or] Hin; try contradiction; congruence.
Qed.

(** *** Restoring *)

(** The windows that [showAll] shows again. *)
Lemma showAll_restores (b : bool -> bool) (a : App) (ref : nat) :
  shown_in (calls_since (world a) (world (showAll b a))) ref
  <-> ref ∈ (if isMinimizedToTray (self a)
             then explicitlyHiddenWindows (self a)
             else _visibleWindows (world a))
      /\ sip_isdeleted (world a) ref = false.
Proof.
  destruct (showAll_world b a) as (_ & _ & extra & Hextra & Hnone).
  set (windows := if isMinimizedToTray (self a)
                  then explicitlyHiddenWindows (self a)
                  else _visibleWindows (world a)) in *.
  destruct (calls_showWindows b windows (world a)) as (new & Hnew & Hshown).
  assert (Hsince : calls_since (world a) (world (showAll b a)) = extra ++ new).
  { apply calls_since_app. rewrite Hextra, Hnew. now rewrite app_assoc. }
  rewrite Hsince, shown_in_app, Hshown.
  split; [intros [H | H]; [now apply Hnone in H | exact H] | auto].
Qed.


(** *** Hiding, then restoring *)

Lemma lookup_hideAll_showAll (b : bool -> bool) (a : App) (ref : nat) :
  widgets (world (showAll b (hideAll a))) !! ref
  = if decide (ref ∈ _visibleWindows (world a))
    then (fun wd => restore_widget b (Qt.hide wd))
           <$> widgets (world a) !! ref
    else widgets (world a) !! ref.
Proof.
  destruct (showAll_world b (hideAll a)) as (Hwid & _).
  change (isMinimizedToTray (self (hideAll a))) with true in Hwid.
  change (explicitlyHiddenWindows (self (hideAll a)))
    with (_visibleWindows (world a)) in Hwid.
  cbv iota in Hwid. rewrite Hwid.
  rewrite lookup_showWindows by apply NoDup_visibleWindows.
  rewrite lookup_hideAll.
  destruct (decide (ref ∈ _visibleWindows (world a))); [| reflexivity].
  now destruct (widgets (world a) !! ref).
Qed.

Lemma sip_isdeleted_hideAll (a : App) (ref : nat) :
  sip_isdeleted (world (hideAll a)) ref = sip_isdeleted (world a) ref.
Proof.
  rewrite !sip_isdeleted_lookup, lookup_hideAll.
  destruct (decide (ref ∈ _visibleWindows (world a))); [| reflexivity].
  now destruct (widgets (world a) !! ref).
Qed.

(** What [_showWindows] leaves of a window that [hideAll] has just hidden:
    the window as it was before, unless the minimized test succeeds. *)
Lemma restore_hidden_widget (b : bool -> bool) (wd : Qt.Widget) :
  Qt.isdeleted wd = false -> Qt.isHidden wd = false ->
  restore_widget b (Qt.hide wd)
  = if b (Qt.isMinimized wd) then Qt.showNormal wd else wd.
Proof.
  intros Hd Hh. unfold restore_widget. simpl. rewrite Hd.
  change (Qt.isMinimized (Qt.hide wd)) with (Qt.isMinimized wd).
  destruct (b (Qt.isMinimized wd)); [reflexivity |].
  destruct wd as [iw ih ch ws del]. simpl in *. now subst.
Qed.

(** [hideAll()] followed at once by [showAll()], whatever the minimized
    test answers: the snapshot is the list of the windows visible at that
    moment, exactly those are shown again, and every other widget is as
    before. *)
Lemma hideAll_then_showAll (b : bool -> bool) (a : App) :
  let a1 := hideAll a in
  let a2 := showAll b a1 in
  explicitlyHiddenWindows (self a1) = _visibleWindows (world a)
  /\ _visibleWindows (world a1) = []
  /\ (forall ref,
        shown_in (calls_since (world a1) (world a2)) ref
        <-> visible_window (world a) ref)
  /\ (forall ref wd,
        visible_window (world a) ref ->
        widgets (world a) !! ref = Some wd ->
        widgets (world a2) !! ref
        = Some (if b (Qt.isMinimized wd) then Qt.showNormal wd else wd))
  /\ (forall ref,
        ~ visible_window (world a) ref ->
        widgets (world a2) !! ref = widgets (world a) !! ref)
  /\ isMinimizedToTray (self a2) = false.
Proof.
  intros a1 a2.
  split; [reflexivity |].
  split; [apply visibleWindows_hideAll |].
  split; [| split; [| split; [| reflexivity]]].
  - intros ref. subst a2. rewrite showAll_restores. subst a1.
    change (isMinimizedToTray (self (hideAll a))) with true.
    change (explicitlyHiddenWindows (self (hideAll a)))
      with (_visibleWindows (world a)).
    cbv iota.
    rewrite sip_isdeleted_hideAll, elem_of_visibleWindows.
    split; [tauto |].
    intros H. split; [exact H | now apply visible_window_not_deleted].
  - intros ref wd0 Hvis Hwd0. subst a2 a1. rewrite lookup_hideAll_showAll.
    destruct (decide (ref ∈ _visibleWindows (world a))) as [_ | Hout].
    + destruct Hvis as (wd & Hwd & Hd & _ & Hh & _).
      rewrite Hwd in Hwd0. inversion Hwd0. subst wd0.
      rewrite Hwd. simpl. f_equal. now apply restore_hidden_widget.
    + contradiction Hout. now apply elem_of_visibleWindows.
  - intros ref Hvis. subst a2 a1. rewrite lookup_hideAll_showAll.
    destruct (decide (ref ∈ _visibleWindows (world a))) as [Hin | _].
    + contradiction Hvis. now apply elem_of_visibleWindows.
    + reflexivity.
Qed.

(** C3.  The browser window of the sample session is visible and
    minimized.  [_showWindows] tests
    [w.isMinimized() == Qt.WindowState.WindowMinimized]; in the binding
    whose enumeration members equal no [bool] the test fails for every
    window, so [showNormal()] is never called: after [hideAll()] and
    [showAll()] the browser window belongs to the snapshot, is shown again
    and the flag is cleared, but it is still minimized, where the claim has
    it un-minimized. *)
Theorem C3_minimized_window_is_not_unminimized_by_showAll :
  let a := Sample.initialized in
  let a1 := hideAll a in
  let a2 := showAll opaque_enum a1 in
  (visible_window (world a) 1
   /\ Qt.isMinimized (the_widget (world a) 1) = true)
  /\ 1%nat ∈ explicitlyHiddenWindows (self a1)
  /\ shown_in (calls_since (world a1) (world a2)) 1
  /\ (forall ref, (ref, Qt.CallShowNormal) ∉ calls (world a2))
  /\ Qt.isHidden (the_widget (world a2) 1) = false
  /\ Qt.isMinimized (the_widget (world a2) 1) = true
  /\ widgets (world a2) = widgets (world a)
  /\ isMinimizedToTray (self a2) = false.
Proof.
  intros a a1 a2.
  assert (Hvis : 1%nat ∈ _visibleWindows (world a)).
  { vm_compute. apply list_elem_of_In. right. now left. }
  split.
  { split; [now apply elem_of_visibleWindows | vm_compute; reflexivity]. }
  split; [exact Hvis |].
  split.
  { destruct (hideAll_then_showAll opaque_enum a) as (_ & _ & Hshown & _).
    apply Hshown. now apply elem_of_visibleWindows. }
  split.
  { intros ref Hin. apply list_elem_of_In in Hin. vm_compute in Hin.
    decompose [or] Hin; try contradiction; congruence. }
  split; [vm_compute; reflexivity |].
  split; [vm_compute; reflexivity |].
  split; [vm_compute; reflexivity | reflexivity].
Qed.

(** With a constant that equals no [bool] the minimized branch is never
    taken: every window is hidden and shown again, and a minimized window
    stays minimized. *)
Lemma hideAll_then_showAll_opaque_enum (a : App) (ref : nat) :
  widgets (world (showAll opaque_enum (hideAll a))) !! ref
  = widgets (world a) !! ref.
Proof.
  rewrite lookup_hideAll_showAll.
  destruct (decide (ref ∈ _visibleWindows (world a))) as [Hin | _];
    [| reflexivity].
  apply elem_of_visibleWindows in Hin as (wd & Hwd & Hd & _ & Hh & _).
  rewrite Hwd. simpl. f_equal. unfold restore_widget, opaque_enum. simpl.
  rewrite Hd. destruct wd as [iw ih ch ws del]. simpl in *. now subst.
Qed.

Example sample_snapshot :
  _visibleWindows (world Sample.initialized) = [0; 1]%nat.
Proof. vm_compute. reflexivity. Qed.

Example sample_hide_then_show :
  let a2 := showAll int_valued_enum (hideAll Sample.initialized) in
  widgets (world a2)
  = [Sample.main_window; Qt.showNormal Sample.browser_minimized;
     Sample.toolkit_internal; Sample.hidden_dialog;
     Sample.child; Sample.child; Sample.child]
  /\ calls (world a2)
     = [(0, Qt.CallActivateWindow); (0, Qt.CallRaise);
        (1, Qt.CallRaise); (1, Qt.CallShowNormal);
        (0, Qt.CallRaise); (0, Qt.CallShow); (0, Qt.CallHide);
        (1, Qt.CallHide); (0, Qt.CallHide)]%nat.
Proof. vm_compute. split; reflexivity. Qed.

Example sample_tray_click_shows_minimized :
  onActivated int_valued_enum Qt.Trigger Sample.initialized
  = showAll int_valued_enum Sample.initialized.
Proof. vm_compute. reflexivity. Qed.

Example sample_tray_click_hides :
  let a := showAll int_valued_enum Sample.initialized in
  onActivated int_valued_enum Qt.Trigger a = hideAll a.
Proof. vm_compute. reflexivity. Qed.

Example sample_tray_click_on_windows_keeps :
  let a := on_world
             (fun w =>
                mkWorld (widgets w) (calls w) (trayIcons w)
                  (quitOnLastWindowClosed w) (mw w) (gui_hooks w)
                  (deck_due_tree w) (config w) (night_mode w) "win32"
                  (running w) (instances w))
             (showAll int_valued_enum Sample.initialized) in
  onActivated int_valued_enum Qt.Trigger a = a.
Proof. vm_compute. reflexivity. Qed.

(** ** Closing the main window *)

Lemma setSystemTrayIcon_keeps_mw (ti : nat) (n : Z) (a : App) :
  mw (world (snd (_setSystemTrayIcon ti n a))) = mw (world a)
  /\ running (world (snd (_setSystemTrayIcon ti n a))) = running (world a).
Proof.
  unfold _setSystemTrayIcon, _getCardsDueDisplayNumber, bind, lift, gets, exec.
  destruct (_formatNumber n) as [e | text]; [now split |]. simpl.
  destruct (_createReviewsIcon a text _); now split.
Qed.

Lemma updateSystemTrayIcon_keeps_mw (force : bool) (a : App) :
  mw (world (snd (updateSystemTrayIcon force a))) = mw (world a)
  /\ running (world (snd (updateSystemTrayIcon force a))) = running (world a).
Proof.
  unfold updateSystemTrayIcon, bind, gets, exec, ret. simpl.
  destruct (_ || force); [| now split].
  apply (setSystemTrayIcon_keeps_mw _ _
           (on_self (set_displayedNumberOfCardsDue (_getAmountOfCardsDue a)) a)).
Qed.

Lemma same_host_showAll (b : bool -> bool) (a : App) :
  same_host (world a) (world (showAll b a)).
Proof. now destruct (showAll_world b a) as (_ & H & _). Qed.

Lemma same_host_onActivated (b : bool -> bool) (reason : Qt.ActivationReason)
  (a : App) : same_host (world a) (world (onActivated b reason a)).
Proof.
  unfold onActivated.
  destruct (Qt.ActivationReason_eqb reason Qt.Trigger);
    [| apply same_host_refl].
  destruct (_ || _ || _); [apply same_host_showAll |].
  destruct (negb _); [apply same_host_hideAll | apply same_host_refl].
Qed.

Lemma installed_same_host (a a' : App) :
  same_host (world a) (world a') -> installed a -> installed a'.
Proof.
  intros (Hmw & Hrun & _) (H1 & H2 & H3). unfold installed.
  now rewrite Hmw, Hrun.
Qed.

(** With the add-on attached and no exit requested, the close button hides
    the windows and the event is ignored. *)
Lemma close_button_hides (a : App) :
  attached a ->
  mw_closeEvent (Qt.mkCloseEvent true) a
  = (inr (Qt.ignore (Qt.mkCloseEvent true)), hideAll a)
  /\ QWidget_close a = hideAll a.
Proof.
  intros ((Hh & Hf & _) & Hattr).
  assert (H : mw_closeEvent (Qt.mkCloseEvent true) a
              = (inr (Qt.ignore (Qt.mkCloseEvent true)), hideAll a)).
  { unfold mw_closeEvent, repl, bind, gets, exec, ret. simpl.
    rewrite Hh. simpl. now rewrite Hf, Hattr. }
  split; [exact H |]. unfold QWidget_close. cbv zeta. now rewrite H.
Qed.

(** With the handler installed and [mw.systemTray] unassigned, the handler
    raises: no window is hidden by [hideAll], the event stays accepted and
    the main window closes. *)
Lemma close_button_raises (a : App) :
  installed a ->
  hasattr (mw (world a)) "systemTray" = false ->
  mw_closeEvent (Qt.mkCloseEvent true) a
  = (inl (Py.AttributeError "systemTray"), a)
  /\ QWidget_close a
     = on_world
         (fun w => set_widgets
                     (alter Qt.hide (Anki.mw_widget (mw w)) (widgets w)) w) a.
Proof.
  intros (Hh & Hf & _) Hattr.
  assert (H : mw_closeEvent (Qt.mkCloseEvent true) a
              = (inl (Py.AttributeError "systemTray"), a)).
  { unfold mw_closeEvent, repl, bind, gets, exec, ret, raise. simpl.
    rewrite Hh. simpl. now rewrite Hf, Hattr. }
  split; [exact H |]. unfold QWidget_close. cbv zeta. now rewrite H.
Qed.

(** The exit action sets the flag, and the replacement handler hands the
    event to the original one. *)
Lemma exit_action_closes (a : App) :
  Anki.closeEvent (mw (world a)) = Anki.repl_handler ->
  let requested :=
    on_world (fun w => set_mw (set_closeEventFromAction true (mw w)) w) a in
  onExit a = QWidget_close requested
  /\ mw_closeEvent (Qt.mkCloseEvent true) requested
     = call_AnkiQt_closeEvent (Qt.mkCloseEvent true) requested
  /\ running (world (onExit a)) = false.
Proof.
  intros Hh requested. split; [reflexivity |].
  assert (H : mw_closeEvent (Qt.mkCloseEvent true) requested
              = call_AnkiQt_closeEvent (Qt.mkCloseEvent true) requested).
  { unfold mw_closeEvent, repl, bind, gets. subst requested. simpl.
    now rewrite Hh. }
  split; [exact H |].
  unfold onExit, QWidget_close. cbv zeta. fold requested. rewrite H.
  reflexivity.
Qed.

(** The exit action leaves the add-on object and the log of calls alone. *)
Lemma exit_action_leaves (a : App) :
  Anki.closeEvent (mw (world a)) = Anki.repl_handler ->
  self (onExit a) = self a /\ calls (world (onExit a)) = calls (world a).
Proof.
  intros Hh. destruct (exit_action_closes a Hh) as (_ & Horig & _).
  unfold onExit, QWidget_close. cbv zeta. rewrite Horig.
  now split.
Qed.

Lemma same_host_close_button (a : App) :
  installed a -> same_host (world a) (world (QWidget_close a)).
Proof.
  intros Hinst.
  destruct (hasattr (mw (world a)) "systemTray") eqn:Hattr.
  - destruct (close_button_hides a (conj Hinst Hattr)) as (_ & ->).
    apply same_host_hideAll.
  - destruct (close_button_raises a Hinst Hattr) as (_ & ->).
    now repeat split.
Qed.

Lemma dispatch_keeps_installed (b : bool -> bool) (e : Event) (a : App) :
  installed a ->
  running (world (dispatch b e a)) = true ->
  installed (dispatch b e a)
  /\ mw (world (dispatch b e a)) = mw (world a).
Proof.
  intros Hinst Hrun.
  assert (Hhost : forall a', same_host (world a) (world a') ->
                             installed a' /\ mw (world a') = mw (world a)).
  { intros a' Hsame. split; [now apply (installed_same_host a) |].
    now destruct Hsame. }
  destruct e; simpl in *.
  - apply Hhost, same_host_onActivated.
  - apply Hhost, same_host_showAll.
  - destruct origin; simpl in *.
    + destruct Hinst as (Hh & _).
      destruct (exit_action_closes a Hh) as (_ & _ & Hstop). congruence.
    + now apply Hhost, same_host_close_button.
  - unfold onFocusChanged. simpl. destruct now; now split.
  - destruct (updateSystemTrayIcon_keeps_mw true a) as (Hmw & Hr).
    destruct Hinst as (H1 & H2 & H3). unfold installed.
    now rewrite Hmw, Hr.
  - destruct (updateSystemTrayIcon_keeps_mw false a) as (Hmw & Hr).
    destruct Hinst as (H1 & H2 & H3). unfold installed.
    now rewrite Hmw, Hr.
  - destruct (updateSystemTrayIcon_keeps_mw false a) as (Hmw & Hr).
    destruct Hinst as (H1 & H2 & H3). unfold installed.
    now rewrite Hmw, Hr.
  - now split.
  - now split.
  - now split.
Qed.

Lemma run_stopped (b : bool -> bool) (events : list Event) (a : App) :
  running (world a) = false -> run b events a = a.
Proof. intros H. destruct events; simpl; [reflexivity | now rewrite H]. Qed.

(** As long as the application runs, no exit has been requested and the
    main window keeps its attributes. *)
Lemma run_keeps_installed (b : bool -> bool) (events : list Event) :
  forall a,
    installed a ->
    running (world (run b events a)) = true ->
    installed (run b events a)
    /\ mw (world (run b events a)) = mw (world a).
Proof.
  induction events as [| e rest IH]; intros a Hinst Hrun; simpl in *.
  - now split.
  - destruct (running (world a)) eqn:Ha; [| now split].
    destruct (running (world (dispatch b e a))) eqn:Hd.
    + destruct (dispatch_keeps_installed b e a Hinst Hd) as (Hi & Hmw).
      destruct (IH _ Hi Hrun) as (Hi' & Hmw'). split; [exact Hi' |].
      now rewrite Hmw'.
    + rewrite run_stopped in Hrun by exact Hd. congruence.
Qed.

Lemma run_keeps_attached (b : bool -> bool) (events : list Event) (a : App) :
  attached a ->
  running (world (run b events a)) = true ->
  attached (run b events a).
Proof.
  intros (Hinst & Hattr) Hrun.
  destruct (run_keeps_installed b events a Hinst Hrun) as (Hi & Hmw).
  split; [exact Hi |]. now rewrite Hmw.
Qed.

(** C1.  Take any state the running application can be in with the add-on
    attached: the one [minimizeToTrayInit] leaves when
    [AnkiSystemTray(mw)] has returned, followed by any events.  A close
    event that comes from the exit action ([onExit] sets
    [closeEventFromAction] and closes the main window) is handed to the
    original [closeEvent]: no window is hidden to the tray and the
    application ends.  A close event from the close button hides all
    windows: none is visible afterwards, each visible window is hidden and
    kept in the snapshot, [isMinimizedToTray] is set; the event comes back
    ignored, so the main window is not closed and the application goes on.
    The close event ends the application exactly when it comes from the
    exit action. *)
Theorem C1_close_event_ends_application_iff_exit_action
  (b : bool -> bool) (a0 : App) (events : list Event) (origin : CloseOrigin) :
  attached a0 ->
  running (world (run b events a0)) = true ->
  let a := run b events a0 in
  let event := Qt.mkCloseEvent true in
  let requested :=
    on_world (fun w => set_mw (set_closeEventFromAction true (mw w)) w) a in
  let a' := deliver_close origin a in
  (origin = FromExitAction ->
   Anki.closeEventFromAction (mw (world requested)) = true
   /\ mw_closeEvent event requested = call_AnkiQt_closeEvent event requested
   /\ a' = QWidget_close requested
   /\ self a' = self a
   /\ calls (world a') = calls (world a)
   /\ running (world a') = false)
  /\ (origin = FromCloseButton ->
      (exists event',
          mw_closeEvent event a = (inr event', a')
          /\ Qt.isAccepted event' = false)
      /\ _visibleWindows (world a') = []
      /\ (forall ref,
            visible_window (world a) ref ->
            widgets (world a') !! ref = Qt.hide <$> widgets (world a) !! ref)
      /\ (forall ref,
            ~ visible_window (world a) ref ->
            widgets (world a') !! ref = widgets (world a) !! ref)
      /\ explicitlyHiddenWindows (self a') = _visibleWindows (world a)
      /\ isMinimizedToTray (self a') = true
      /\ running (world a') = true)
  /\ (running (world a') = false <-> origin = FromExitAction).
Proof.
  intros Hatt Hrun a event requested a'.
  assert (Ha : attached a) by (now apply run_keeps_attached).
  pose proof Ha as ((Hh & _ & Hlive) & _).
  destruct (exit_action_closes a Hh) as (Hexit & Horig & Hstop).
  destruct (close_button_hides a Ha) as (Hign & Hhide).
  assert (Hrunning : running (world (hideAll a)) = true).
  { destruct (same_host_hideAll a) as (_ & Hr & _). now rewrite Hr. }
  split; [| split].
  - intros ->. subst a'.
    change (deliver_close FromExitAction a) with (onExit a).
    split; [reflexivity |]. split; [exact Horig |].
    split; [exact Hexit |].
    destruct (exit_action_leaves a Hh) as (Hself & Hcalls).
    now repeat split.
  - intros ->. subst a'.
    change (deliver_close FromCloseButton a) with (QWidget_close a).
    rewrite Hhide.
    split; [exists (Qt.ignore event); now split |].
    split; [apply visibleWindows_hideAll |].
    split; [| split; [| now repeat split]].
    + intros ref Hvis. rewrite lookup_hideAll.
      destruct (decide (ref ∈ _visibleWindows (world a))) as [_ | Hout];
        [reflexivity |].
      contradiction Hout. now apply elem_of_visibleWindows.
    + intros ref Hvis. rewrite lookup_hideAll.
      destruct (decide (ref ∈ _visibleWindows (world a))) as [Hin | _];
        [| reflexivity].
      contradiction Hvis. now apply elem_of_visibleWindows.
  - subst a'. destruct origin.
    + change (deliver_close FromExitAction a) with (onExit a).
      split; [reflexivity | intros _; exact Hstop].
    + change (deliver_close FromCloseButton a) with (QWidget_close a).
      rewrite Hhide, Hrunning. split; discriminate.
Qed.

Example sample_is_installed : installed Sample.initialized.
Proof. vm_compute. repeat split. Qed.

Example sample_is_attached : attached Sample.initialized.
Proof. vm_compute. repeat split. Qed.

Lemma C1_close_event_ends_application_iff_exit_action_witness :
  let a := run opaque_enum
             [TrayIconActivated Qt.Trigger; FocusChanged None (Some 1%nat);
              StateDidChange] Sample.initialized in
  let event := Qt.mkCloseEvent true in
  let requested :=
    on_world (fun w => set_mw (set_closeEventFromAction true (mw w)) w) a in
  let a' := deliver_close FromCloseButton a in
  (FromCloseButton = FromExitAction ->
   Anki.closeEventFromAction (mw (world requested)) = true
   /\ mw_closeEvent event requested = call_AnkiQt_closeEvent event requested
   /\ a' = QWidget_close requested
   /\ self a' = self a
   /\ calls (world a') = calls (world a)
   /\ running (world a') = false)
  /\ (FromCloseButton = FromCloseButton ->
      (exists event',
          mw_closeEvent event a = (inr event', a')
          /\ Qt.isAccepted event' = false)
      /\ _visibleWindows (world a') = []
      /\ (forall ref,
            visible_window (world a) ref ->
            widgets (world a') !! ref = Qt.hide <$> widgets (world a) !! ref)
      /\ (forall ref,
            ~ visible_window (world a) ref ->
            widgets (world a') !! ref = widgets (world a) !! ref)
      /\ explicitlyHiddenWindows (self a') = _visibleWindows (world a)
      /\ isMinimizedToTray (self a') = true
      /\ running (world a') = true)
  /\ (running (world a') = false <-> FromCloseButton = FromExitAction).
Proof.
  apply (C1_close_event_ends_application_iff_exit_action opaque_enum
           Sample.initialized
           [TrayIconActivated Qt.Trigger; FocusChanged None (Some 1%nat);
            StateDidChange] FromCloseButton).
  - vm_compute. repeat split.
  - vm_compute. reflexivity.
Defined.

Example sample_close_button_then_exit :
  let a1 := dispatch opaque_enum (CloseRequested FromCloseButton)
              Sample.initialized in
  let a2 := dispatch opaque_enum (CloseRequested FromExitAction) a1 in
  running (world a1) = true
  /\ isMinimizedToTray (self a1) = true
  /\ _visibleWindows (world a1) = []
  /\ running (world a2) = false.
Proof. vm_compute. repeat split. Qed.

Example sample_close_button_after_a_failed_init :
  let a := half_initialized in
  let a1 := dispatch opaque_enum (CloseRequested FromCloseButton) a in
  fst (mw_closeEvent (Qt.mkCloseEvent true) a)
  = inl (Py.AttributeError "systemTray")
  /\ isMinimizedToTray (self a1) = false
  /\ _visibleWindows (world a1) = [1%nat]
  /\ running (world a1) = true.
Proof. vm_compute. repeat split. Qed.


(** ** Initialization, in general *)

Section Assertions.

Context {A B : Type}.

Lemma keeps_bind (I : App -> Prop) (m : M A) (k : A -> M B) :
  keeps I m -> (forall x, keeps I (k x)) -> keeps I (bind m k).
Proof.
  intros Hm Hk a Ha. unfold bind. specialize (Hm a Ha).
  destruct (m a) as [[e | x] a']; simpl in *; [exact Hm |].
  now apply Hk.
Qed.

Lemma keeps_query (I : App -> Prop) (f : App -> Py.PyResult A) :
  keeps I (fun a => (f a, a)).
Proof. intros a Ha. exact Ha. Qed.

Lemma keeps_ret (I : App -> Prop) (x : A) : keeps I (ret x).
Proof. intros a Ha. exact Ha. Qed.

Lemma keeps_gets (I : App -> Prop) (f : App -> A) : keeps I (gets f).
Proof. intros a Ha. exact Ha. Qed.

Lemma keeps_lift (I : App -> Prop) (r : Py.PyResult A) : keeps I (lift r).
Proof. intros a Ha. exact Ha. Qed.

Lemma returns_bind (P : App -> Prop) (m : M A) (Q : A -> App -> Prop)
  (k : A -> M B) (R : B -> App -> Prop) :
  returns P m Q -> (forall x, returns (Q x) (k x) R) -> returns P (bind m k) R.
Proof.
  intros Hm Hk a Ha. unfold bind. specialize (Hm a Ha).
  destruct (m a) as [[e | x] a']; [exact I |].
  now apply Hk.
Qed.

Lemma returns_keeps (I : App -> Prop) (m : M A) :
  keeps I m -> returns I m (fun _ => I).
Proof.
  intros Hm a Ha. specialize (Hm a Ha).
  now destruct (m a) as [[e | x] a'].
Qed.

(** Once the continuation always raises, so does the whole. *)
Lemma bind_raises (m : M A) (k : A -> M B) :
  (forall x a, exists e, fst (k x a) = inl e) ->
  forall a, exists e, fst (bind m k a) = inl e.
Proof.
  intros Hk a. unfold bind.
  destruct (m a) as [[e | x] a']; [now exists e | apply Hk].
Qed.

End Assertions.

Lemma keeps_exec (I : App -> Prop) (f : App -> App) :
  (forall a, I a -> I (f a)) -> keeps I (exec f).
Proof. intros Hf a Ha. now apply Hf. Qed.

(** Walks through code in [M], leaving the steps that write. *)
Ltac keeps_steps :=
  repeat first
    [ apply keeps_ret
    | apply keeps_gets
    | apply keeps_lift
    | apply keeps_query
    | apply keeps_bind; [| intros ?]
    | match goal with
      | |- keeps _ (if ?c then _ else _) => destruct c
      | |- keeps _ (match ?c with _ => _ end) => destruct c
      end
    | apply keeps_exec; intros ? ? ].

Lemma keeps_setSystemTrayIcon (I : App -> Prop) (ti : nat) (n : Z) :
  (forall ic a, I a -> I (on_world (setIcon ti ic) a)) ->
  keeps I (_setSystemTrayIcon ti n).
Proof.
  intros HI. unfold _setSystemTrayIcon. keeps_steps. now apply HI.
Qed.

Lemma configureMw_installs :
  returns (fun a => running (world a) = true) _configureMw (fun _ => installed).
Proof.
  intros a Ha.
  unfold _configureMw, disconnect, bind, gets, exec, lift. simpl.
  destruct (bool_decide _); [| exact I].
  now repeat split.
Qed.

(** [__init__], when it returns, leaves the main window as [installed]
    asks. *)
Lemma init_installs :
  returns (fun a => running (world a) = true) __init__ (fun _ => installed).
Proof.
  unfold __init__.
  do 10 (eapply returns_bind;
         [ apply returns_keeps;
           unfold _createSystemTrayIcon, _setSystemTrayIcon; keeps_steps;
           simpl; assumption
         | intros ? ]).
  eapply returns_bind; [apply configureMw_installs | intros ?].
  apply returns_keeps. keeps_steps; try (simpl; assumption).
  eapply installed_same_host; [apply same_host_hideAll | assumption].
Qed.

(** Without [hide_on_startup] in the configuration [__init__] never
    returns: it raises, at the latest when it reads the option. *)
Lemma init_raises_without_hide_on_startup (a : App) :
  config (world a) !! "hide_on_startup" = None ->
  exists e, fst (__init__ a) = inl e.
Proof.
  intros Hnone. unfold __init__.
  unfold bind at 1. unfold gets at 1.
  repeat match goal with
         | |- exists e, fst (bind ?m _ _) = inl e =>
             lazymatch m with
             | lift _ => fail
             | _ => apply bind_raises; intros ? ?
             end
         end.
  unfold bind, lift, Py.dict_getitem. rewrite Hnone. simpl. eauto.
Qed.

Lemma hasattr_setattr_ne (name other : string) (m : Anki.MainWindow) :
  name <> other -> hasattr (mw_setattr other m) name = hasattr m name.
Proof.
  intros Hne. unfold hasattr, mw_setattr. simpl.
  apply bool_decide_ext. rewrite elem_of_union, elem_of_singleton. tauto.
Qed.

(** [__init__] does not give the main window an attribute [trayIcon], makes
    no further object, and leaves the cached count alone. *)
Lemma init_keeps_guard_open :
  keeps (fun a => hasattr (mw (world a)) "trayIcon" = false) __init__.
Proof.
  unfold __init__, _createSystemTrayIcon, _configureMw, _setSystemTrayIcon.
  keeps_steps; try (simpl; assumption).
  - simpl. unfold set_closeEventFromAction.
    now rewrite hasattr_setattr_ne by discriminate.
  - simpl. unfold set_closeEvent.
    now rewrite hasattr_setattr_ne by discriminate.
  - destruct (same_host_hideAll a) as (Hmw & _). now rewrite Hmw.
Qed.

Lemma init_keeps_instances (n : nat) :
  keeps (fun a => instances (world a) = n) __init__.
Proof.
  unfold __init__, _createSystemTrayIcon, _configureMw, _setSystemTrayIcon.
  keeps_steps; try (simpl; assumption).
  destruct (same_host_hideAll a) as (_ & _ & _ & Hi). now rewrite Hi.
Qed.

Lemma init_keeps_cached_count (n : Z) :
  keeps (fun a => _displayedNumberOfCardsDue (self a) = n) __init__.
Proof.
  unfold __init__, _createSystemTrayIcon, _configureMw, _setSystemTrayIcon.
  keeps_steps; simpl; assumption.
Qed.

(** Whatever is due when the object is made, its cached count is 0. *)
Lemma new_object_caches_zero (w w' : World) (obj : AnkiSystemTray) :
  AnkiSystemTray_new w = (inr obj, w') ->
  _displayedNumberOfCardsDue obj = 0.
Proof.
  unfold AnkiSystemTray_new. intros H.
  pose proof (init_keeps_cached_count 0
                (mkApp (class_attributes (instances w))
                   (set_instances (S (instances w)) w)) eq_refl) as Hk.
  destruct (__init__ _) as [[e | []] a']; inversion H. subst. exact Hk.
Qed.

(** A firing on a main window without [trayIcon] makes one more object
    and leaves the main window without [trayIcon]. *)
Lemma firing_leaves_guard_open (p : Process) :
  hasattr (mw (proc_world p)) "trayIcon" = false ->
  hasattr (mw (proc_world (snd (minimizeToTrayInit p)))) "trayIcon" = false
  /\ instances (proc_world (snd (minimizeToTrayInit p)))
     = S (instances (proc_world p)).
Proof.
  intros Hguard. unfold minimizeToTrayInit. rewrite Hguard.
  unfold AnkiSystemTray_new.
  set (a := mkApp (class_attributes (instances (proc_world p)))
              (set_instances (S (instances (proc_world p))) (proc_world p))).
  pose proof (init_keeps_guard_open a Hguard) as Hg.
  pose proof (init_keeps_instances (S (instances (proc_world p))) a eq_refl)
    as Hi.
  destruct (__init__ a) as [[e | []] a']; simpl in *.
  - now split.
  - split; [| exact Hi].
    now rewrite hasattr_setattr_ne by discriminate.
Qed.

(** The guard never closes: [n] firings make [n] objects. *)
Lemma every_firing_constructs (n : nat) (p : Process) :
  hasattr (mw (proc_world p)) "trayIcon" = false ->
  hasattr (mw (proc_world (fire n p))) "trayIcon" = false
  /\ instances (proc_world (fire n p)) = (n + instances (proc_world p))%nat.
Proof.
  intros Hguard. induction n as [| n [IHg IHi]]; simpl.
  - now split.
  - destruct (firing_leaves_guard_open (fire n p) IHg) as [Hg Hi].
    split; [exact Hg |]. unfold fire in *. simpl. rewrite Hi, IHi. reflexivity.
Qed.

Lemma bind_gets {A B : Type} (f : App -> A) (k : A -> M B) (a : App) :
  bind (gets f) k a = k (f a) a.
Proof. reflexivity. Qed.

(** The two guarded options fall back to the attributes of the class when
    they are absent. *)
Lemma init_defaults (a : App) :
  config (world a) !! "show_due" = None ->
  config (world a) !! "due_font_size" = None ->
  showDueAmount (self a) = true ->
  dueFontSize (self a) = Py.JInt 16 ->
  showDueAmount (self (snd (__init__ a))) = true
  /\ dueFontSize (self (snd (__init__ a))) = Py.JInt 16.
Proof.
  intros Hshow Hfont Hs Hf. unfold __init__.
  rewrite bind_gets, Hshow, Hfont, andb_false_r.
  match goal with
  | |- context [snd (?m a)] =>
      apply (fun H : keeps (fun a => showDueAmount (self a) = true
                                     /\ dueFontSize (self a) = Py.JInt 16) m
             => H a (conj Hs Hf))
  end.
  unfold _createSystemTrayIcon, _configureMw, _setSystemTrayIcon.
  keeps_steps; simpl; assumption.
Qed.

(** * Further properties of the code *)

(** ** Badge text *)

(** X1.  [_formatNumber] returns a text for every integer: the two
    indexings [numberString[0]] and [numberString[1]] of its middle branch
    never raise [IndexError]. *)
Theorem X1_formatNumber_never_raises (n : Z) :
  exists text, _formatNumber n = inr text.
Proof. apply formatNumber_returns. Qed.

(** X2.  For a number from 1000 to 9999 [_formatNumber] returns four
    characters: the thousands digit, a dot, the hundreds digit and [k];
    the number is cut, not rounded (1999 gives 1.9k). *)
Theorem X2_formatNumber_thousands_are_cut (n : Z) :
  1000 <= n < 10000 ->
  _formatNumber n
  = inr (String (digit (n / 1000))
           (String "." (String (digit (n / 100 mod 10)) "k"))).
Proof. intros Hn. now apply formatNumber_thousands. Qed.

Lemma X2_formatNumber_thousands_are_cut_witness :
  _formatNumber 1999
  = inr (String (digit (1999 / 1000))
           (String "." (String (digit (1999 / 100 mod 10)) "k")))
  /\ _formatNumber 1999 = inr "1.9k".
Proof.
  split; [| reflexivity].
  apply (X2_formatNumber_thousands_are_cut 1999). lia.
Defined.

Lemma short_text_all : forallb short_text_ok below_ten_thousand = true.
Proof. vm_cast_no_check (eq_refl true). Qed.

(** X3.  For a due-count from 0 to 9999 the badge text has at least one and
    at most four characters. *)
Theorem X3_badge_text_has_one_to_four_characters (n : Z) :
  0 <= n < 10000 ->
  exists text,
    _formatNumber n = inr text
    /\ (1 <= String.length text <= 4)%nat.
Proof.
  intros Hn.
  pose proof short_text_all as Hall. rewrite forallb_forall in Hall.
  assert (Hin : In n below_ten_thousand) by (apply in_zrange; lia).
  apply Hall in Hin. unfold short_text_ok in Hin.
  destruct (_formatNumber n) as [e | text]; [discriminate |].
  exists text. split; [reflexivity |].
  apply andb_true_iff in Hin as [H1 H2].
  apply Nat.leb_le in H1. apply Nat.leb_le in H2. lia.
Qed.

Lemma X3_badge_text_has_one_to_four_characters_witness :
  exists text,
    _formatNumber 250 = inr text /\ (1 <= String.length text <= 4)%nat.
Proof. apply (X3_badge_text_has_one_to_four_characters 250). lia. Defined.

(** ** Counting the due cards *)

Lemma due_foldl_shift (t : list Anki.DeckTreeNode) (start : Z) :
  foldl
    (fun total child =>
       total + Anki.new_count child + Anki.learn_count child
       + Anki.review_count child) start t
  = start
    + foldl
        (fun total child =>
           total + Anki.new_count child + Anki.learn_count child
           + Anki.review_count child) 0 t.
Proof.
  revert start. induction t as [| c t IH]; intros start; simpl; [lia |].
  rewrite IH. rewrite (IH (0 + _ + _ + _)). lia.
Qed.

(** X4.  The due-count does not depend on the order in which the scheduler
    lists the decks. *)
Theorem X4_due_count_ignores_the_order_of_decks
  (a : App) (t1 t2 : list Anki.DeckTreeNode) :
  t1 ≡ₚ t2 ->
  _getAmountOfCardsDue (with_tree t1 a) = _getAmountOfCardsDue (with_tree t2 a).
Proof.
  intros Hp. unfold _getAmountOfCardsDue, with_tree. simpl.
  destruct (negb (showDueAmount (self a))); [reflexivity |].
  induction Hp as [| c t t' _ IH | c c' t | t t' t'' _ IH1 _ IH2]; simpl.
  - reflexivity.
  - rewrite due_foldl_shift, (due_foldl_shift t'). now rewrite IH.
  - f_equal. lia.
  - congruence.
Qed.

Lemma X4_due_count_ignores_the_order_of_decks_witness :
  _getAmountOfCardsDue
    (with_tree [Anki.mkNode 1 2 3; Anki.mkNode 10 0 5] Sample.initialized)
  = _getAmountOfCardsDue
      (with_tree [Anki.mkNode 10 0 5; Anki.mkNode 1 2 3] Sample.initialized).
Proof.
  apply (X4_due_count_ignores_the_order_of_decks Sample.initialized).
  apply Permutation_swap.
Defined.

(** X5.  With [showDueAmount] on, the due-count of two lists of decks put
    together is the sum of their due-counts, and the due-count of a list of
    decks whose counts are all non-negative is non-negative; with
    [showDueAmount] off the due-count is 0 whatever is due. *)
Theorem X5_due_count_adds_up (a : App) (t1 t2 : list Anki.DeckTreeNode) :
  (showDueAmount (self a) = true ->
   _getAmountOfCardsDue (with_tree (t1 ++ t2) a)
   = _getAmountOfCardsDue (with_tree t1 a)
     + _getAmountOfCardsDue (with_tree t2 a))
  /\ (showDueAmount (self a) = true ->
      Forall (fun c => 0 <= Anki.new_count c /\ 0 <= Anki.learn_count c
                       /\ 0 <= Anki.review_count c) t1 ->
      0 <= _getAmountOfCardsDue (with_tree t1 a))
  /\ (showDueAmount (self a) = false ->
      _getAmountOfCardsDue (with_tree t1 a) = 0).
Proof.
  unfold _getAmountOfCardsDue, with_tree. simpl.
  split; [| split]; intros Hshow; rewrite Hshow; simpl; [| | reflexivity].
  - rewrite foldl_app. apply due_foldl_shift.
  - intros Hall. induction Hall as [| c t (Hn & Hl & Hr) _ IH]; simpl; [lia |].
    rewrite due_foldl_shift. lia.
Qed.

Example due_count_of_sample :
  _getAmountOfCardsDue Sample.initialized = 5
  /\ _getAmountOfCardsDue
       (on_self (set_showDueAmount false) Sample.initialized) = 0.
Proof. vm_compute. split; reflexivity. Qed.

(** ** Focus *)

Lemma focus_lost (after : list (option nat * option nat)) : forall a,
  Forall (fun c => snd c = None) after ->
  let a' := focus_changes after a in
  lastFocusedWidget (self a') = lastFocusedWidget (self a)
  /\ isAnkiFocused (self a')
     = (if bool_decide (after = []) then isAnkiFocused (self a) else false)
  /\ world a' = world a.
Proof.
  induction after as [| [old now] after IH]; intros a Hall; simpl.
  - now repeat split.
  - apply Forall_cons in Hall as [Hnow Hall]. simpl in Hnow. subst now.
    destruct (IH (onFocusChanged old None a) Hall) as (Hl & Hf & Hw).
    unfold focus_changes in *. simpl in *.
    split; [exact Hl |]. split; [| exact Hw].
    rewrite Hf. now destruct (bool_decide (after = [])).
Qed.

(** X6.  [lastFocusedWidget] is the widget that gained the focus most
    recently, however many times the focus was lost to another application
    since; [isAnkiFocused] tells whether the last change gave the focus to
    a widget; focus changes touch nothing outside the object. *)
Theorem X6_last_focused_widget_survives_focus_loss
  (a : App) (before after : list (option nat * option nat))
  (old : option nat) (ref : nat) :
  Forall (fun c => snd c = None) after ->
  let a' := focus_changes (before ++ (old, Some ref) :: after) a in
  lastFocusedWidget (self a') = ref
  /\ isAnkiFocused (self a') = bool_decide (after = [])
  /\ world a' = world a.
Proof.
  intros Hall a'. subst a'. unfold focus_changes. rewrite foldl_app. simpl.
  set (a1 := foldl _ a before).
  assert (Hw1 : world a1 = world a).
  { subst a1. clear. induction before as [| c before IH] using rev_ind.
    - reflexivity.
    - rewrite foldl_app. simpl. rewrite <- IH.
      unfold onFocusChanged. now destruct (snd c). }
  destruct (focus_lost after (onFocusChanged old (Some ref) a1) Hall)
    as (Hl & Hf & Hw).
  unfold focus_changes in *. rewrite Hl, Hf, Hw. simpl.
  split; [reflexivity |]. split; [| exact Hw1].
  now destruct (bool_decide (after = [])).
Qed.

Lemma X6_last_focused_widget_survives_focus_loss_witness :
  let a' := focus_changes
              ([(None, Some 0%nat)]
               ++ (Some 0%nat, Some 1%nat)
                  :: [(Some 1%nat, None); (None, None)])
              Sample.initialized in
  lastFocusedWidget (self a') = 1%nat
  /\ isAnkiFocused (self a')
     = bool_decide ([(Some 1%nat, @None nat); (@None nat, @None nat)] = [])
  /\ world a' = world Sample.initialized.
Proof.
  apply (X6_last_focused_widget_survives_focus_loss Sample.initialized
           [(None, Some 0%nat)] [(Some 1%nat, None); (None, None)]
           (Some 0%nat) 1%nat).
  repeat constructor.
Defined.

(** ** Hiding *)

(** X7.  [hideAll] hides exactly the windows that were visible (existing
    top-level windows that were not hidden and have children): each of them
    is hidden with its window state kept, no other widget changes, no
    window is visible afterwards, and the main window's attributes and the
    tray icons are left alone. *)
Theorem X7_hideAll_hides_exactly_the_visible_windows (a : App) :
  _visibleWindows (world (hideAll a)) = []
  /\ (forall ref,
        visible_window (world a) ref ->
        widgets (world (hideAll a)) !! ref
        = Qt.hide <$> widgets (world a) !! ref)
  /\ (forall ref,
        ~ visible_window (world a) ref ->
        widgets (world (hideAll a)) !! ref = widgets (world a) !! ref)
  /\ mw (world (hideAll a)) = mw (world a)
  /\ trayIcons (world (hideAll a)) = trayIcons (world a).
Proof.
  split; [apply visibleWindows_hideAll |].
  destruct (same_host_hideAll a) as (Hmw & _ & Hti & _).
  split; [| split; [| split; assumption]]; intros ref Hvis;
    rewrite lookup_hideAll;
    destruct (decide (ref ∈ _visibleWindows (world a))) as [Hin | Hout];
    try reflexivity.
  - contradiction Hout. now apply elem_of_visibleWindows.
  - contradiction Hvis. now apply elem_of_visibleWindows.
Qed.

Lemma hideAll_twice_world (a : App) :
  world (hideAll (hideAll a)) = world (hideAll a)
  /\ explicitlyHiddenWindows (self (hideAll (hideAll a))) = [].
Proof.
  set (a1 := hideAll a).
  assert (H : _visibleWindows (world a1) = [])
    by apply visibleWindows_hideAll.
  clearbody a1. unfold hideAll. simpl. now rewrite H.
Qed.

(** X8.  [hideAll] called while the windows are already hidden overwrites
    the snapshot with the empty list: nothing more is hidden, and the next
    [showAll] shows no window again; the windows hidden by the first call
    stay hidden. *)
Theorem X8_second_hideAll_loses_the_snapshot
  (b : bool -> bool) (a : App) :
  let a2 := hideAll (hideAll a) in
  explicitlyHiddenWindows (self a2) = []
  /\ world a2 = world (hideAll a)
  /\ (forall ref, ~ shown_in (calls_since (world a2) (world (showAll b a2))) ref)
  /\ widgets (world (showAll b a2)) = widgets (world (hideAll a))
  /\ _visibleWindows (world (showAll b a2)) = [].
Proof.
  intros a2. destruct (hideAll_twice_world a) as (Hw & Hs). fold a2 in Hw, Hs.
  assert (Hwid : widgets (world (showAll b a2)) = widgets (world (hideAll a))).
  { destruct (showAll_world b a2) as (H & _).
    change (isMinimizedToTray (self a2)) with true in H. cbv iota in H.
    rewrite H, Hs, Hw. reflexivity. }
  split; [exact Hs |]. split; [exact Hw |]. split; [| split; [exact Hwid |]].
  - intros ref Hshown. apply showAll_restores in Hshown as [Hin _].
    change (isMinimizedToTray (self a2)) with true in Hin. cbv iota in Hin.
    rewrite Hs in Hin. now apply elem_of_nil in Hin.
  - apply elem_of_nil_inv. intros ref Hr.
    apply elem_of_visibleWindows in Hr as (wd & Hwd & Hrest).
    rewrite Hwid in Hwd.
    assert (Hv : ref ∈ _visibleWindows (world (hideAll a))).
    { apply elem_of_visibleWindows. exists wd. auto. }
    rewrite visibleWindows_hideAll in Hv. now apply elem_of_nil in Hv.
Qed.

Example sample_close_button_twice :
  let a := run int_valued_enum
             [CloseRequested FromCloseButton; CloseRequested FromCloseButton;
              ShowAllTriggered] Sample.initialized in
  _visibleWindows (world a) = []
  /\ isMinimizedToTray (self a) = false.
Proof. vm_compute. split; reflexivity. Qed.

(** ** Showing again *)

Lemma shown_after_showWindows (b : bool -> bool) (l : list nat) :
  forall (w : World) (ref : nat),
    (ref ∈ l \/ Qt.isHidden (the_widget w ref) = false) ->
    sip_isdeleted w ref = false ->
    Qt.isHidden (the_widget (_showWindows b l w) ref) = false.
Proof.
  unfold _showWindows.
  induction l as [| x l IH]; intros w ref Hcase Hlive; simpl.
  - destruct Hcase as [Hin | Hshown]; [| exact Hshown].
    now apply elem_of_nil in Hin.
  - apply IH; [| now rewrite sip_isdeleted_showWindows_body].
    destruct (decide (x = ref)) as [-> | Hne].
    + right. rewrite sip_isdeleted_lookup in Hlive.
      unfold the_widget. rewrite lookup_showWindows_body.
      destruct (decide (ref = ref)); [| congruence].
      destruct (widgets w !! ref) as [wd |]; [| discriminate]. simpl in *.
      unfold restore_widget. rewrite Hlive.
      now destruct (b (Qt.isMinimized wd)).
    + destruct Hcase as [Hin | Hshown].
      * left. apply elem_of_cons in Hin as [-> | Hin]; [congruence | exact Hin].
      * right. unfold the_widget in *. rewrite lookup_showWindows_body.
        now destruct (decide (x = ref)).
Qed.

(** X9.  After [showAll] every window it was to restore that still exists
    is shown (not hidden), whatever the minimized test of [_showWindows]
    answers, and [isMinimizedToTray] is false. *)
Theorem X9_showAll_leaves_its_windows_shown
  (b : bool -> bool) (a : App) (ref : nat) :
  ref ∈ (if isMinimizedToTray (self a) then explicitlyHiddenWindows (self a)
         else _visibleWindows (world a)) ->
  sip_isdeleted (world a) ref = false ->
  Qt.isHidden (the_widget (world (showAll b a)) ref) = false
  /\ isMinimizedToTray (self (showAll b a)) = false.
Proof.
  intros Hin Hlive. split; [| reflexivity].
  destruct (showAll_world b a) as (Hwid & _).
  unfold the_widget. rewrite Hwid.
  apply (shown_after_showWindows b); [now left | exact Hlive].
Qed.

Lemma X9_showAll_leaves_its_windows_shown_witness :
  Qt.isHidden
    (the_widget (world (showAll opaque_enum (hideAll Sample.initialized))) 1)
  = false
  /\ isMinimizedToTray (self (showAll opaque_enum (hideAll Sample.initialized)))
     = false.
Proof.
  apply (X9_showAll_leaves_its_windows_shown opaque_enum
           (hideAll Sample.initialized) 1%nat).
  - vm_compute. apply list_elem_of_In. right. now left.
  - vm_compute. reflexivity.
Defined.

Lemma widgets_eq_by_lookup (w1 w2 : World) :
  (forall ref, widgets w1 !! ref = widgets w2 !! ref) ->
  widgets w1 = widgets w2.
Proof. intros H. now apply list_eq. Qed.

(** X10.  Two primary clicks on the tray icon, with the application focused,
    nothing hidden to the tray, no visible window minimized and a platform
    other than [win32]: the first click hides every visible window, the
    second one restores them, and every widget is then in the state it had
    before the first click.  (The minimized test of [_showWindows] is
    assumed to answer false for a window that is not minimized.) *)
Theorem X10_two_tray_clicks_restore_the_windows (b : bool -> bool) (a : App) :
  b false = false ->
  isAnkiFocused (self a) = true ->
  isMinimizedToTray (self a) = false ->
  (forall ref,
      visible_window (world a) ref ->
      Qt.isMinimized (the_widget (world a) ref) = false) ->
  String.prefix "win32" (platform (world a)) = false ->
  let a1 := onActivated b Qt.Trigger a in
  let a2 := onActivated b Qt.Trigger a1 in
  _visibleWindows (world a1) = []
  /\ isMinimizedToTray (self a1) = true
  /\ widgets (world a2) = widgets (world a)
  /\ isMinimizedToTray (self a2) = false.
Proof.
  intros Hb Hfocus Hflag Hnone Hplat a1 a2.
  pose proof (anyWindowMinimized_false _ Hnone) as Hmin.
  assert (H1 : a1 = hideAll a).
  { subst a1. unfold onActivated. simpl. now rewrite Hfocus, Hmin, Hflag, Hplat. }
  assert (H2 : a2 = showAll b (hideAll a)).
  { subst a2. rewrite H1. unfold onActivated.
    change (isMinimizedToTray (self (hideAll a))) with true.
    now rewrite !orb_true_r. }
  rewrite H1, H2.
  split; [apply visibleWindows_hideAll |]. split; [reflexivity |].
  split; [| reflexivity].
  apply widgets_eq_by_lookup. intros ref.
  rewrite lookup_hideAll_showAll.
  destruct (decide (ref ∈ _visibleWindows (world a))) as [Hin | _];
    [| reflexivity].
  apply elem_of_visibleWindows in Hin.
  pose proof (Hnone ref Hin) as Hnotmin.
  destruct Hin as (wd & Hwd & Hd & _ & Hh & _).
  rewrite (the_widget_lookup _ _ _ Hwd) in Hnotmin.
  rewrite Hwd. simpl. f_equal.
  rewrite restore_hidden_widget by assumption.
  now rewrite Hnotmin, Hb.
Qed.

Lemma X10_two_tray_clicks_restore_the_windows_witness :
  let a := showAll int_valued_enum Sample.initialized in
  let a1 := onActivated int_valued_enum Qt.Trigger a in
  let a2 := onActivated int_valued_enum Qt.Trigger a1 in
  _visibleWindows (world a1) = []
  /\ isMinimizedToTray (self a1) = true
  /\ widgets (world a2) = widgets (world a)
  /\ isMinimizedToTray (self a2) = false.
Proof.
  apply (X10_two_tray_clicks_restore_the_windows int_valued_enum
           (showAll int_valued_enum Sample.initialized)).
  - reflexivity.
  - vm_compute. reflexivity.
  - vm_compute. reflexivity.
  - intros ref Hvis. apply elem_of_visibleWindows in Hvis.
    assert (Hl : _visibleWindows
                   (world (showAll int_valued_enum Sample.initialized))
                 = [0; 1]%nat) by (vm_compute; reflexivity).
    rewrite Hl in Hvis.
    apply elem_of_cons in Hvis as [-> | Hvis]; [vm_compute; reflexivity |].
    apply elem_of_cons in Hvis as [-> | Hvis]; [vm_compute; reflexivity |].
    now apply elem_of_nil in Hvis.
  - vm_compute. reflexivity.
Defined.

(** X11.  When the minimized test of [_showWindows] never succeeds (the
    toolkit's constant equals no [bool]), [hideAll] followed by [showAll]
    leaves every widget exactly as it was: a minimized window is hidden and
    shown again, and stays minimized. *)
Theorem X11_restore_keeps_minimized_when_test_never_succeeds
  (b : bool -> bool) (a : App) :
  (forall x, b x = false) ->
  widgets (world (showAll b (hideAll a))) = widgets (world a).
Proof.
  intros Hb. apply widgets_eq_by_lookup. intros ref.
  rewrite lookup_hideAll_showAll.
  destruct (decide (ref ∈ _visibleWindows (world a))) as [Hin | _];
    [| reflexivity].
  apply elem_of_visibleWindows in Hin as (wd & Hwd & Hd & _ & Hh & _).
  rewrite Hwd. simpl. f_equal. unfold restore_widget. simpl.
  rewrite Hd, Hb. destruct wd as [iw ih ch ws del]. simpl in *. now subst.
Qed.

Lemma X11_restore_keeps_minimized_when_test_never_succeeds_witness :
  widgets (world (showAll opaque_enum (hideAll Sample.initialized)))
  = widgets (world Sample.initialized).
Proof.
  apply (X11_restore_keeps_minimized_when_test_never_succeeds opaque_enum
           Sample.initialized).
  intros x. reflexivity.
Defined.

(** ** Refreshing the icon, further *)

Lemma setSystemTrayIcon_frame (ti : nat) (n : Z) (a : App) :
  self (snd (_setSystemTrayIcon ti n a)) = self a
  /\ deck_due_tree (world (snd (_setSystemTrayIcon ti n a)))
     = deck_due_tree (world a).
Proof.
  unfold _setSystemTrayIcon, _getCardsDueDisplayNumber, bind, lift, gets, exec.
  destruct (_formatNumber n) as [e | text]; [now split |]. simpl.
  destruct (_createReviewsIcon a text _); now split.
Qed.

(** X12.  A non-forced refresh right after any refresh does nothing: the
    first one has stored the count it found, also when painting it raised,
    so the second one finds the count unchanged. *)
Theorem X12_refresh_after_refresh_does_nothing (force : bool) (a : App) :
  updateSystemTrayIcon false (snd (updateSystemTrayIcon force a))
  = (inr tt, snd (updateSystemTrayIcon force a)).
Proof.
  set (n := _getAmountOfCardsDue a).
  assert (Hafter : forall a',
             self a' = set_displayedNumberOfCardsDue n (self a) ->
             deck_due_tree (world a') = deck_due_tree (world a) ->
             updateSystemTrayIcon false a' = (inr tt, a')).
  { intros a' Hs Ht.
    assert (Hn : _getAmountOfCardsDue a' = n).
    { subst n. unfold _getAmountOfCardsDue. now rewrite Hs, Ht. }
    unfold updateSystemTrayIcon, bind, gets, exec, ret. simpl.
    rewrite Hn, Hs. simpl. rewrite Z.eqb_refl. simpl.
    now rewrite andb_false_r. }
  unfold updateSystemTrayIcon at 2 3. unfold bind, gets, exec, ret. simpl.
  fold n.
  destruct (showDueAmount (self a)
            && negb (n =? _displayedNumberOfCardsDue (self a))) eqn:Hch;
    simpl.
  - destruct (setSystemTrayIcon_frame (trayIcon (self a)) n
                (on_self (set_displayedNumberOfCardsDue n) a)) as (Hs & Ht).
    now apply Hafter.
  - destruct force.
    + destruct (setSystemTrayIcon_frame (trayIcon (self a)) n
                  (on_self (set_displayedNumberOfCardsDue n) a)) as (Hs & Ht).
      now apply Hafter.
    + simpl. unfold updateSystemTrayIcon, bind, gets, exec, ret. simpl.
      fold n. now rewrite Hch.
Qed.

Lemma tray_image_setIcon (w : World) (ti : nat) (ic : Qt.QIcon) :
  is_Some (trayIcons w !! ti) -> tray_image (setIcon ti ic w) ti = Some ic.
Proof.
  intros [t Ht]. unfold tray_image, setIcon. simpl.
  rewrite list_lookup_alter_eq, Ht. reflexivity.
Qed.

(** X13.  Whenever [updateSystemTrayIcon] changes anything (the font size
    being a number and the tray icon existing), the cached count and the
    icon agree afterwards: the cached count is the count just queried, and
    the icon carries that count's text as badge if the count is positive
    and [showDueAmount] is on, and no badge otherwise. *)
Theorem X13_refresh_leaves_cache_and_icon_in_step
  (a : App) (force : bool) (px : Z) :
  Py.as_int (dueFontSize (self a)) = inr px ->
  is_Some (trayIcons (world a) !! trayIcon (self a)) ->
  snd (updateSystemTrayIcon force a) <> a ->
  let a' := snd (updateSystemTrayIcon force a) in
  let n := _getAmountOfCardsDue a in
  _displayedNumberOfCardsDue (self a') = n
  /\ exists text,
       _formatNumber n = inr text
       /\ tray_image (world a') (trayIcon (self a')) ≫= badge
          = (if (n >? 0) && showDueAmount (self a) then Some text else None).
Proof.
  intros Hpx Hti Hchanged a' n. subst a'.
  unfold updateSystemTrayIcon, bind, gets, exec, ret in *. simpl in *.
  fold n in Hchanged |- *.
  destruct (showDueAmount (self a)
            && negb (n =? _displayedNumberOfCardsDue (self a)) || force);
    [| now simpl in Hchanged].
  destruct (setSystemTrayIcon_draws
              (on_self (set_displayedNumberOfCardsDue n) a)
              (trayIcon (self a)) n px Hpx)
    as (text & ic & Htext & Hset & _ & Hbadge & _).
  simpl in Hset. rewrite Hset. simpl.
  split; [reflexivity |]. exists text. split; [exact Htext |].
  rewrite tray_image_setIcon by exact Hti. exact Hbadge.
Qed.

Lemma X13_refresh_leaves_cache_and_icon_in_step_witness :
  let a := with_tree [Anki.mkNode 1000 200 34] Sample.initialized in
  let a' := snd (updateSystemTrayIcon false a) in
  let n := _getAmountOfCardsDue a in
  _displayedNumberOfCardsDue (self a') = n
  /\ exists text,
       _formatNumber n = inr text
       /\ tray_image (world a') (trayIcon (self a')) ≫= badge
          = (if (n >? 0) && showDueAmount (self a) then Some text else None).
Proof.
  apply (X13_refresh_leaves_cache_and_icon_in_step
           (with_tree [Anki.mkNode 1000 200 34] Sample.initialized) false 14).
  - reflexivity.
  - vm_compute. eauto.
  - intros H.
    apply (f_equal (fun a => _displayedNumberOfCardsDue (self a))) in H.
    vm_compute in H. discriminate.
Defined.

(** X14.  When the font size is not a number, building the icon raises
    [TypeError] before the badge is even considered: every
    [_setSystemTrayIcon] raises and leaves the icon as it was, also for a
    count of 0; a forced refresh raises too, but has already stored the
    count it did not paint. *)
Theorem X14_redraw_raises_when_font_size_is_not_a_number
  (a : App) (e : Py.PyExc) (ti : nat) (n : Z) :
  Py.as_int (dueFontSize (self a)) = inl e ->
  _setSystemTrayIcon ti n a = (inl e, a)
  /\ updateSystemTrayIcon true a
     = (inl e,
        on_self (set_displayedNumberOfCardsDue (_getAmountOfCardsDue a)) a).
Proof.
  intros Hfont.
  assert (Hset : forall ti n a,
             Py.as_int (dueFontSize (self a)) = inl e ->
             _setSystemTrayIcon ti n a = (inl e, a)).
  { clear. intros ti n a Hfont.
    unfold _setSystemTrayIcon, _getCardsDueDisplayNumber, bind, lift, gets,
      exec.
    destruct (formatNumber_returns n) as [text ->]. simpl.
    unfold _createReviewsIcon. now rewrite Hfont. }
  split; [now apply Hset |].
  rewrite updateSystemTrayIcon_forced. now apply Hset.
Qed.

Lemma X14_redraw_raises_when_font_size_is_not_a_number_witness :
  let a := on_self (set_dueFontSize (Py.JStr "large")) Sample.initialized in
  _setSystemTrayIcon 0 0 a = (inl (Py.TypeError "str"), a)
  /\ updateSystemTrayIcon true a
     = (inl (Py.TypeError "str"),
        on_self (set_displayedNumberOfCardsDue (_getAmountOfCardsDue a)) a).
Proof.
  apply (X14_redraw_raises_when_font_size_is_not_a_number
           (on_self (set_dueFontSize (Py.JStr "large")) Sample.initialized)
           (Py.TypeError "str") 0%nat 0).
  reflexivity.
Defined.

(** ** Initialization, step by step *)

Lemma bind_exec {B : Type} (f : App -> App) (k : unit -> M B) (a : App) :
  bind (exec f) k a = k tt (f a).
Proof. reflexivity. Qed.

Lemma bind_ret {A B : Type} (x : A) (k : A -> M B) (a : App) :
  bind (ret x) k a = k x a.
Proof. reflexivity. Qed.

Lemma bind_bind {A B C : Type} (m : M A) (f : A -> M B) (g : B -> M C)
  (a : App) :
  bind (bind m f) g a = bind m (fun x => bind (f x) g) a.
Proof.
  unfold bind. destruct (m a) as [[e | x] a']; [reflexivity |].
  now destruct (f x a') as [[e | y] a''].
Qed.

Lemma bind_lift {A B : Type} (r : Py.PyResult A) (k : A -> M B) (a : App) :
  bind (lift r) k a
  = match r with inr x => k x a | inl e => (inl e, a) end.
Proof. unfold bind, lift. now destruct r. Qed.

Lemma bind_setSystemTrayIcon {B : Type} (ti : nat) (n : Z) (k : unit -> M B)
  (a : App) :
  bind (_setSystemTrayIcon ti n) k a
  = match Py.as_int (dueFontSize (self a)) with
    | inl e => (inl e, a)
    | inr px => k tt (on_world (setIcon ti (painted_icon a n px)) a)
    end.
Proof.
  unfold bind at 1.
  destruct (Py.as_int (dueFontSize (self a))) as [e | px] eqn:Hfont.
  - unfold _setSystemTrayIcon, _getCardsDueDisplayNumber, bind, lift, gets,
      exec.
    destruct (formatNumber_returns n) as [text ->]. simpl.
    unfold _createReviewsIcon. now rewrite Hfont.
  - unfold painted_icon.
    destruct (formatNumber_returns n) as [text Htext]. rewrite Htext.
    rewrite (setSystemTrayIcon_eq a ti n text _ Htext
               (createReviewsIcon_int a text _ px Hfont)).
    reflexivity.
Qed.

Ltac step_init :=
  repeat first
    [ rewrite bind_bind
    | rewrite bind_exec
    | rewrite bind_gets
    | rewrite bind_ret ].

(** What [_createSystemTrayIcon] leaves: with a font size that is not a
    number, a tray icon without image and the exception; otherwise a tray
    icon with the painted image, the menu and the connection. *)
Lemma bind_createSystemTrayIcon {B : Type} (k : nat -> M B) (a : App) :
  bind _createSystemTrayIcon k a
  = match Py.as_int (dueFontSize (self a)) with
    | inl e =>
        (inl e,
         on_world
           (fun w => set_trayIcons
                       (trayIcons w ++ [Qt.mkTrayIcon None false [] []]) w) a)
    | inr px =>
        k (length (trayIcons (world a)))
          (on_world
             (fun w =>
                set_trayIcons
                  (trayIcons w
                   ++ [Qt.mkTrayIcon
                         (Some (painted_icon a (_getAmountOfCardsDue a) px))
                         false
                         [Qt.NewAction "Show all windows"
                            [Qt.bound (ident (self a)) Qt.m_showAll];
                          Qt.actionExit]
                         [Qt.bound (ident (self a)) Qt.m_onActivated]]) w) a)
    end.
Proof.
  unfold _createSystemTrayIcon. step_init. rewrite bind_setSystemTrayIcon.
  simpl (dueFontSize _).
  destruct (Py.as_int (dueFontSize (self a))) as [e | px]; [reflexivity |].
  step_init. f_equal.
  unfold on_world, setIcon, set_trayIcons. simpl. f_equal. f_equal.
  rewrite <- (Nat.add_0_r (length (trayIcons (world a)))).
  rewrite !alter_app_r. reflexivity.
Qed.

Lemma bind_configureMw {B : Type} (k : unit -> M B) (a : App) :
  bind _configureMw k a
  = let a1 :=
      on_world
        (fun w =>
           set_mw
             (set_focusChanged
                (Anki.focusChanged (mw w)
                 ++ [Qt.bound (ident (self a)) Qt.m_onFocusChanged])
                (set_closeEventFromAction false (mw w))) w) a in
    if bool_decide (Qt.mw_close ∈ Anki.actionExit_triggered (mw (world a)))
    then
      k tt
        (on_world
           (fun w =>
              set_mw
                (set_closeEvent Anki.repl_handler
                   (set_actionExit_triggered
                      (list_difference (Anki.actionExit_triggered (mw w))
                         [Qt.mw_close]
                       ++ [Qt.bound (ident (self a)) Qt.m_onExit]) (mw w)))
                w) a1)
    else (inl (Py.TypeError "disconnect() failed"), a1).
Proof.
  unfold _configureMw. step_init. rewrite bind_lift. unfold disconnect.
  simpl.
  destruct (bool_decide _); [| reflexivity].
  step_init. reflexivity.
Qed.

Ltac run_init :=
  unfold __init__; rewrite bind_gets;
  match goal with
  | |- context [bind (if ?c then _ else _)] => destruct c eqn:?
  end;
  match goal with
  | |- context [bind (match ?c with Some _ => _ | None => _ end)] =>
      destruct c eqn:?
  end;
  step_init; rewrite bind_createSystemTrayIcon; simpl (dueFontSize _).

(** What [__init__] answers: the first of three things that can go wrong
    decides. *)
Lemma init_outcome (a : App) :
  fst (__init__ a)
  = match Py.as_int (default (dueFontSize (self a))
                       (config (world a) !! "due_font_size")) with
    | inl e => inl e
    | inr _ =>
        if bool_decide (Qt.mw_close ∈ Anki.actionExit_triggered (mw (world a)))
        then match config (world a) !! "hide_on_startup" with
             | Some _ => inr tt
             | None => inl (Py.KeyError "hide_on_startup")
             end
        else inl (Py.TypeError "disconnect() failed")
    end.
Proof.
  run_init; simpl (default _ _).
  all: match goal with
       | |- context [Py.as_int ?v] => destruct (Py.as_int v); [reflexivity |]
       end.
  all: step_init; rewrite bind_configureMw; cbv zeta;
    simpl (Anki.actionExit_triggered _);
    destruct (bool_decide _); [| reflexivity].
  all: step_init; rewrite bind_lift; unfold Py.dict_getitem;
    destruct (config (world a) !! "hide_on_startup") as [h |];
    [| reflexivity].
  all: destruct (Py.truthy h); reflexivity.
Qed.

Lemma alter_last {A : Type} (f : A -> A) (l : list A) (x : A) :
  alter f (length l) (l ++ [x]) = l ++ [f x].
Proof.
  rewrite <- (Nat.add_0_r (length l)). now rewrite alter_app_r.
Qed.

(** A run of [__init__] that gets past the font size and the exit action,
    written out: the state before [hide_on_startup] is read, and what
    reading it leads to. *)
Lemma init_steps (a : App) (px : Z) :
  Py.as_int (default (dueFontSize (self a))
               (config (world a) !! "due_font_size")) = inr px ->
  Qt.mw_close ∈ Anki.actionExit_triggered (mw (world a)) ->
  let w := world a in
  let id := ident (self a) in
  let s1 :=
    mkTray id
      (if Py.dict_contains (config w) "show_due"
          && match config w !! "show_due" with
             | Some v => Py.eq_False v
             | None => false
             end
       then false else showDueAmount (self a))
      (default (dueFontSize (self a)) (config w !! "due_font_size"))
      true false (Anki.mw_widget (mw w)) [] (length (trayIcons w))
      (_displayedNumberOfCardsDue (self a)) in
  let n := _getAmountOfCardsDue (mkApp s1 w) in
  let a1 :=
    mkApp s1
      (mkWorld (widgets w) (calls w)
         (trayIcons w
          ++ [Qt.mkTrayIcon (Some (painted_icon (mkApp s1 w) n px)) true
                [Qt.NewAction "Show all windows" [Qt.bound id Qt.m_showAll];
                 Qt.actionExit]
                [Qt.bound id Qt.m_onActivated]])
         false
         (set_closeEvent Anki.repl_handler
            (set_actionExit_triggered
               (list_difference (Anki.actionExit_triggered (mw w))
                  [Qt.mw_close]
                ++ [Qt.bound id Qt.m_onExit])
               (set_focusChanged
                  (Anki.focusChanged (mw w) ++ [Qt.bound id Qt.m_onFocusChanged])
                  (set_closeEventFromAction false (mw w)))))
         (Anki.mkHooks
            (Anki.theme_did_change (gui_hooks w)
             ++ [Anki.forceUpdateFunction id])
            (Anki.state_did_change (gui_hooks w) ++ [Anki.updateFunction id])
            (Anki.operation_did_execute (gui_hooks w)
             ++ [Anki.updateFunction id]))
         (deck_due_tree w) (config w) (night_mode w) (platform w) (running w)
         (instances w)) in
  __init__ a
  = match config w !! "hide_on_startup" with
    | Some h => (inr tt, if Py.truthy h then hideAll a1 else a1)
    | None => (inl (Py.KeyError "hide_on_startup"), a1)
    end.
Proof.
  intros Hfont Hconn w id s1 n a1.
  run_init; simpl (default _ _) in Hfont; rewrite Hfont.
  all: step_init; rewrite bind_configureMw; cbv zeta;
    simpl (Anki.actionExit_triggered _);
    rewrite (bool_decide_eq_true_2 _ Hconn).
  all: step_init; rewrite bind_lift; unfold Py.dict_getitem.
  all: match goal with
       | |- context [_addHooks ?s] =>
           assert (Heq : _addHooks s = a1);
           [| rewrite Heq; subst w;
              destruct (config _ !! "hide_on_startup") as [h |];
              [now destruct (Py.truthy h) | reflexivity] ]
       end.
  all: subst a1 n s1 id w.
  all: match goal with
       | H : _ && _ = _ |- _ => rewrite H
       end.
  all: match goal with
       | H : config _ !! "due_font_size" = _ |- _ => rewrite H
       end.
  all: cbv [_addHooks on_world on_self trayIcon_show setQuitOnLastWindowClosed
            set_trayIcons set_mw set_gui_hooks
            self world widgets calls trayIcons quitOnLastWindowClosed mw
            gui_hooks deck_due_tree config night_mode platform running
            instances
            ident showDueAmount dueFontSize isAnkiFocused isMinimizedToTray
            lastFocusedWidget explicitlyHiddenWindows trayIcon
            _displayedNumberOfCardsDue
            set_showDueAmount set_dueFontSize set_isAnkiFocused
            set_isMinimizedToTray set_lastFocusedWidget
            set_explicitlyHiddenWindows set_trayIcon
            set_closeEventFromAction set_closeEvent set_actionExit_triggered
            set_focusChanged mw_setattr
            Anki.mw_widget Anki.attrs Anki.closeEventFromAction
            Anki.closeEvent Anki.actionExit_triggered Anki.focusChanged
            Anki.theme_did_change Anki.state_did_change
            Anki.operation_did_execute
            painted_icon _getAmountOfCardsDue default Datatypes.id].
  all: rewrite alter_last.
  all: reflexivity.
Qed.

(** [hideAll] touches the widgets and nothing else. *)
Lemma hideAll_rest (a : App) :
  quitOnLastWindowClosed (world (hideAll a)) = quitOnLastWindowClosed (world a)
  /\ gui_hooks (world (hideAll a)) = gui_hooks (world a)
  /\ deck_due_tree (world (hideAll a)) = deck_due_tree (world a)
  /\ night_mode (world (hideAll a)) = night_mode (world a).
Proof.
  unfold hideAll.
  change (world (mkApp ?s ?w)) with w.
  generalize (explicitlyHiddenWindows
                (set_explicitlyHiddenWindows (_visibleWindows (world a))
                   (self a))).
  intros l. generalize (world a). clear.
  induction l as [| ref l IH]; intros w; [now repeat split |].
  simpl. destruct (IH (widget_call ref Qt.CallHide w)) as (H1 & H2 & H3 & H4).
  now rewrite H1, H2, H3, H4.
Qed.

Lemma visibleWindows_ext (w1 w2 : World) :
  widgets w1 = widgets w2 -> _visibleWindows w1 = _visibleWindows w2.
Proof.
  intros H.
  unfold _visibleWindows, QApplication_topLevelWidgets, sip_isdeleted,
    the_widget.
  now rewrite H.
Qed.

Lemma init_returns_only_if (a : App) :
  fst (__init__ a) = inr tt ->
  exists px h,
    Py.as_int (default (dueFontSize (self a))
                 (config (world a) !! "due_font_size")) = inr px
    /\ Qt.mw_close ∈ Anki.actionExit_triggered (mw (world a))
    /\ config (world a) !! "hide_on_startup" = Some h.
Proof.
  rewrite init_outcome. intros H.
  destruct (Py.as_int _) as [e | px]; [discriminate |].
  destruct (bool_decide _) eqn:Hconn; [| discriminate].
  destruct (config (world a) !! "hide_on_startup") as [h |]; [| discriminate].
  exists px, h. repeat split. now apply bool_decide_eq_true in Hconn.
Qed.

(** ** Initialization: what it answers and what it leaves *)

(** X15.  [__init__] returns only if the font size in effect (the
    configured [due_font_size], else the class attribute) is an [int], the
    exit action is connected to [mw.close], and the configuration holds
    [hide_on_startup]: a font size that is [None] or a text raises
    [TypeError] while the first icon is built, an exit action not connected
    to [mw.close] makes the [disconnect] fail, and a configuration without
    [hide_on_startup] raises [KeyError]. *)
Theorem X15_init_returns_only_if_three_things_hold (a : App) :
  fst (__init__ a) = inr tt ->
  (exists px,
      Py.as_int (default (dueFontSize (self a))
                   (config (world a) !! "due_font_size")) = inr px)
  /\ Qt.mw_close ∈ Anki.actionExit_triggered (mw (world a))
  /\ is_Some (config (world a) !! "hide_on_startup").
Proof.
  intros H. destruct (init_returns_only_if a H) as (px & h & H1 & H2 & H3).
  split; [now exists px |]. split; [exact H2 |]. now exists h.
Qed.

Lemma X15_init_returns_only_if_three_things_hold_witness :
  let a := fresh_app Sample.config_full in
  (exists px,
      Py.as_int (default (dueFontSize (self a))
                   (config (world a) !! "due_font_size")) = inr px)
  /\ Qt.mw_close ∈ Anki.actionExit_triggered (mw (world a))
  /\ is_Some (config (world a) !! "hide_on_startup").
Proof.
  apply (X15_init_returns_only_if_three_things_hold
           (fresh_app Sample.config_full)).
  vm_compute. reflexivity.
Defined.

Example init_with_text_font_size :
  fst (__init__
         (mkApp (class_attributes 0)
            (Sample.startup
               (<[ "due_font_size" := Py.JStr "large" ]> Sample.config_full)
               "linux")))
  = inl (Py.TypeError "str").
Proof. vm_compute. reflexivity. Qed.

(** Brings the state left by a run of [__init__] that returned into the
    goal. *)
Ltac init_final a H :=
  let px := fresh "px" in
  let h := fresh "h" in
  let Hfont := fresh "Hfont" in
  let Hconn := fresh "Hconn" in
  let Hhide := fresh "Hhide" in
  let Hrun := fresh "Hrun" in
  destruct (init_returns_only_if a H) as (px & h & Hfont & Hconn & Hhide);
  pose proof (init_steps a px Hfont Hconn) as Hrun;
  cbv zeta in Hrun; rewrite Hhide in Hrun; rewrite Hrun;
  change (snd (?x, ?y)) with y;
  match goal with
  | |- context [if Py.truthy h then hideAll ?x else ?x] => set (a1 := x)
  end.

(** X16.  When [__init__] returns, the main window is rewired: its close
    handler is the replacement, no exit is pending, the exit action
    triggers [onExit] of the new object and no longer [mw.close], focus
    changes reach the object, the application no longer quits with its
    last window, and the three hooks have gained one entry each (a forced
    refresh on a theme change, a plain one on the two others), after the
    entries that were there. *)
Theorem X16_init_rewires_the_main_window (a : App) :
  fst (__init__ a) = inr tt ->
  let a' := snd (__init__ a) in
  let m := mw (world a) in
  let m' := mw (world a') in
  let id := ident (self a) in
  Anki.closeEvent m' = Anki.repl_handler
  /\ Anki.closeEventFromAction m' = false
  /\ Anki.actionExit_triggered m'
     = list_difference (Anki.actionExit_triggered m) [Qt.mw_close]
       ++ [Qt.bound id Qt.m_onExit]
  /\ (Qt.mw_close ∉ Anki.actionExit_triggered m')
  /\ Anki.focusChanged m'
     = Anki.focusChanged m ++ [Qt.bound id Qt.m_onFocusChanged]
  /\ quitOnLastWindowClosed (world a') = false
  /\ gui_hooks (world a')
     = Anki.mkHooks
         (Anki.theme_did_change (gui_hooks (world a))
          ++ [Anki.forceUpdateFunction id])
         (Anki.state_did_change (gui_hooks (world a))
          ++ [Anki.updateFunction id])
         (Anki.operation_did_execute (gui_hooks (world a))
          ++ [Anki.updateFunction id]).
Proof.
  intros H a' m m' id. subst a' m m' id.
  init_final a H.
  assert (Hmw : mw (world (if Py.truthy h then hideAll a1 else a1))
                = mw (world a1)).
  { destruct (Py.truthy h); [| reflexivity].
    now destruct (same_host_hideAll a1) as (Hm & _). }
  assert (Hrest : quitOnLastWindowClosed
                    (world (if Py.truthy h then hideAll a1 else a1))
                  = quitOnLastWindowClosed (world a1)
                  /\ gui_hooks (world (if Py.truthy h then hideAll a1 else a1))
                     = gui_hooks (world a1)).
  { destruct (Py.truthy h); [| now split].
    destruct (hideAll_rest a1) as (Hq & Hg & _). now split. }
  destruct Hrest as (Hq & Hg). rewrite Hmw, Hq, Hg.
  repeat split; try reflexivity.
  change (Anki.actionExit_triggered (mw (world a1)))
    with (list_difference (Anki.actionExit_triggered (mw (world a)))
            [Qt.mw_close]
          ++ [Qt.bound (ident (self a)) Qt.m_onExit]).
  rewrite elem_of_app, list_elem_of_difference, !list_elem_of_singleton.
  intros [[_ Hne] | Heq]; [now apply Hne | discriminate].
Qed.

Lemma badge_painted_icon (a : App) (n px : Z) (text : string) :
  _formatNumber n = inr text ->
  badge (painted_icon a n px)
  = (if (n >? 0) && showDueAmount (self a) then Some text else None).
Proof.
  intros Htext. unfold badge, painted_icon. rewrite Htext.
  now destruct ((n >? 0) && showDueAmount (self a)).
Qed.

(** X17.  When [__init__] returns, the object owns a tray icon that was not
    there before: it is shown, has the menu entries [Show all windows]
    (connected to [showAll]) and the host's exit action, and a primary
    click on it reaches [onActivated].  Its image carries the badge for the
    cards due now (if any, and if [showDueAmount] is on), while the cached
    count of the object is still the one it started with. *)
Theorem X17_init_shows_a_new_tray_icon (a : App) :
  fst (__init__ a) = inr tt ->
  let a' := snd (__init__ a) in
  let n := _getAmountOfCardsDue a' in
  exists ic text,
    trayIcon (self a') = length (trayIcons (world a))
    /\ trayIcons (world a')
       = trayIcons (world a)
         ++ [Qt.mkTrayIcon (Some ic) true
               [Qt.NewAction "Show all windows"
                  [Qt.bound (ident (self a)) Qt.m_showAll];
                Qt.actionExit]
               [Qt.bound (ident (self a)) Qt.m_onActivated]]
    /\ _formatNumber n = inr text
    /\ badge ic
       = (if (n >? 0) && showDueAmount (self a') then Some text else None)
    /\ _displayedNumberOfCardsDue (self a')
       = _displayedNumberOfCardsDue (self a).
Proof.
  intros H a' n. subst n a'.
  init_final a H.
  set (af := if Py.truthy h then hideAll a1 else a1).
  assert (Hti : trayIcons (world af) = trayIcons (world a1)).
  { subst af. destruct (Py.truthy h); [| reflexivity].
    now destruct (same_host_hideAll a1) as (_ & _ & Ht & _). }
  assert (Hshow : showDueAmount (self af) = showDueAmount (self a1)).
  { subst af. now destruct (Py.truthy h). }
  assert (Hn : _getAmountOfCardsDue af = _getAmountOfCardsDue a1).
  { unfold _getAmountOfCardsDue. rewrite Hshow. subst af.
    destruct (Py.truthy h); [| reflexivity].
    destruct (hideAll_rest a1) as (_ & _ & Hd & _). now rewrite Hd. }
  destruct (formatNumber_returns (_getAmountOfCardsDue a1)) as [text Htext].
  eexists _, text. rewrite Hti, Hn, Hshow.
  split; [subst af; now destruct (Py.truthy h) |].
  split; [reflexivity |].
  split; [exact Htext |].
  split; [| subst af; now destruct (Py.truthy h)].
  exact (badge_painted_icon (mkApp (self a1) (world a))
           (_getAmountOfCardsDue a1) px text Htext).
Qed.

(** X18.  When [__init__] returns, [hide_on_startup] decides how the
    application starts: if it is true (in the sense of [if]), every window
    that was visible is hidden, the snapshot holds those windows and
    [isMinimizedToTray] is set; if it is false, no widget was touched, the
    snapshot is empty and [isMinimizedToTray] is not set. *)
Theorem X18_hide_on_startup_decides_how_it_starts (a : App) :
  fst (__init__ a) = inr tt ->
  let a' := snd (__init__ a) in
  exists h,
    config (world a) !! "hide_on_startup" = Some h
    /\ isMinimizedToTray (self a') = Py.truthy h
    /\ (Py.truthy h = true ->
        _visibleWindows (world a') = []
        /\ explicitlyHiddenWindows (self a') = _visibleWindows (world a)
        /\ forall ref,
             visible_window (world a) ref ->
             widgets (world a') !! ref = Qt.hide <$> widgets (world a) !! ref)
    /\ (Py.truthy h = false ->
        widgets (world a') = widgets (world a)
        /\ calls (world a') = calls (world a)
        /\ explicitlyHiddenWindows (self a') = []).
Proof.
  intros H a'. subst a'.
  init_final a H. exists h. split; [exact Hhide |].
  assert (Hvis : _visibleWindows (world a1) = _visibleWindows (world a))
    by (now apply visibleWindows_ext).
  destruct (Py.truthy h).
  - split; [reflexivity |]. split; [| intros Hf; discriminate Hf].
    intros _. split; [apply visibleWindows_hideAll |].
    split; [exact Hvis |].
    intros ref Href. rewrite lookup_hideAll, Hvis.
    destruct (decide (ref ∈ _visibleWindows (world a))) as [_ | Hout];
      [reflexivity |].
    contradiction Hout. now apply elem_of_visibleWindows.
  - split; [reflexivity |]. split; [intros Hf; discriminate Hf |].
    intros _. now repeat split.
Qed.

(** X19.  When the configuration lacks [hide_on_startup] (and nothing else
    is wrong), [minimizeToTrayInit] raises [KeyError] and [mw.systemTray]
    is not assigned; yet by then the close handler of the main window is
    already the replacement and the new tray icon is already shown. *)
Theorem X19_failed_init_leaves_the_handler_replaced (p : Process) (px : Z) :
  hasattr (mw (proc_world p)) "trayIcon" = false ->
  config (proc_world p) !! "hide_on_startup" = None ->
  Py.as_int (default (Py.JInt 16) (config (proc_world p) !! "due_font_size"))
  = inr px ->
  Qt.mw_close ∈ Anki.actionExit_triggered (mw (proc_world p)) ->
  let r := minimizeToTrayInit p in
  fst r = inl (Py.KeyError "hide_on_startup")
  /\ systemTray (snd r) = systemTray p
  /\ Anki.closeEvent (mw (proc_world (snd r))) = Anki.repl_handler
  /\ exists t,
       trayIcons (proc_world (snd r)) = trayIcons (proc_world p) ++ [t]
       /\ Qt.visible t = true.
Proof.
  intros Hguard Hnone Hfont Hconn r. subst r.
  unfold minimizeToTrayInit. rewrite Hguard. unfold AnkiSystemTray_new.
  set (a := mkApp (class_attributes (instances (proc_world p)))
              (set_instances (S (instances (proc_world p))) (proc_world p))).
  pose proof (init_steps a px Hfont Hconn) as Hrun. cbv zeta in Hrun.
  change (config (world a)) with (config (proc_world p)) in Hrun.
  rewrite Hnone in Hrun. rewrite Hrun.
  split; [reflexivity |]. split; [reflexivity |]. split; [reflexivity |].
  eexists. split; reflexivity.
Qed.

Lemma X19_failed_init_leaves_the_handler_replaced_witness :
  let p := Sample.process0 Sample.config_without_hide_on_startup in
  let r := minimizeToTrayInit p in
  fst r = inl (Py.KeyError "hide_on_startup")
  /\ systemTray (snd r) = systemTray p
  /\ Anki.closeEvent (mw (proc_world (snd r))) = Anki.repl_handler
  /\ exists t,
       trayIcons (proc_world (snd r)) = trayIcons (proc_world p) ++ [t]
       /\ Qt.visible t = true.
Proof.
  apply (X19_failed_init_leaves_the_handler_replaced
           (Sample.process0 Sample.config_without_hide_on_startup) 14).
  - vm_compute. reflexivity.
  - vm_compute. reflexivity.
  - vm_compute. reflexivity.
  - vm_compute. left.
Defined.

(** X20.  When [__init__] returns, the badge is switched off exactly when
    it was off already or the configuration holds [show_due] with a value
    equal to [False], that is [false] or [0]; [null], a text or a missing
    key leave it on.  The font size is the configured value, whatever it
    is, or else the one the object had. *)
Theorem X20_show_due_is_switched_off_by_false_or_zero (a : App) :
  fst (__init__ a) = inr tt ->
  let a' := snd (__init__ a) in
  (showDueAmount (self a') = false
   <-> showDueAmount (self a) = false
       \/ exists v,
            config (world a) !! "show_due" = Some v
            /\ (v = Py.JBool false \/ v = Py.JInt 0))
  /\ dueFontSize (self a')
     = default (dueFontSize (self a)) (config (world a) !! "due_font_size").
Proof.
  intros H a'. subst a'.
  init_final a H.
  assert (Hs : showDueAmount (self (if Py.truthy h then hideAll a1 else a1))
               = showDueAmount (self a1))
    by (now destruct (Py.truthy h)).
  assert (Hf : dueFontSize (self (if Py.truthy h then hideAll a1 else a1))
               = dueFontSize (self a1))
    by (now destruct (Py.truthy h)).
  rewrite Hs, Hf. split; [| reflexivity].
  change (showDueAmount (self a1))
    with (if Py.dict_contains (config (world a)) "show_due"
             && match config (world a) !! "show_due" with
                | Some v => Py.eq_False v
                | None => false
                end
          then false else showDueAmount (self a)).
  unfold Py.dict_contains.
  destruct (config (world a) !! "show_due") as [v |].
  - rewrite bool_decide_eq_true_2 by eauto. simpl.
    destruct v as [| [|] | z | s]; simpl.
    + split; [tauto |]. intros [Hoff | (v & Hv & [Hb | Hz])];
        [exact Hoff | |]; inversion Hv; subst; discriminate.
    + split; [tauto |]. intros [Hoff | (v & Hv & [Hb | Hz])];
        [exact Hoff | |]; inversion Hv; subst; discriminate.
    + split; [| reflexivity]. intros _. right. eauto.
    + destruct (Z.eqb_spec z 0) as [-> | Hne].
      * split; [| reflexivity]. intros _. right. eauto.
      * split; [tauto |]. intros [Hoff | (v & Hv & [Hb | Hz])];
          [exact Hoff | |]; inversion Hv; subst; congruence.
    + split; [tauto |]. intros [Hoff | (v & Hv & [Hb | Hz])];
        [exact Hoff | |]; inversion Hv; subst; discriminate.
  - rewrite andb_false_r. split; [tauto |].
    intros [Hoff | (v & Hv & _)]; [exact Hoff | discriminate].
Qed.

Example show_due_zero_switches_the_badge_off :
  let r := minimizeToTrayInit
             (Sample.process0
                (<[ "show_due" := Py.JInt 0 ]> Sample.config_full)) in
  showDueAmount <$> systemTray (snd r) = Some false.
Proof. vm_compute. reflexivity. Qed.

Example show_due_null_leaves_the_badge_on :
  let r := minimizeToTrayInit
             (Sample.process0
                (<[ "show_due" := Py.JNull ]> Sample.config_full)) in
  showDueAmount <$> systemTray (snd r) = Some true.
Proof. vm_compute. reflexivity. Qed.

(** ** The hook fired more than once *)

(** X21.  On a main window without an attribute [trayIcon], every firing of
    [main_window_did_init] makes a new [AnkiSystemTray] object, whether its
    [__init__] then returns or raises, and never gives the main window the
    attribute the guard looks for: [n] firings make [n] objects. *)
Theorem X21_every_firing_makes_an_object (n : nat) (p : Process) :
  hasattr (mw (proc_world p)) "trayIcon" = false ->
  hasattr (mw (proc_world (fire n p))) "trayIcon" = false
  /\ instances (proc_world (fire n p)) = (n + instances (proc_world p))%nat.
Proof. apply every_firing_constructs. Qed.

Lemma X21_every_firing_makes_an_object_witness :
  hasattr (mw (proc_world (fire 3 (Sample.process0 Sample.config_full))))
    "trayIcon" = false
  /\ instances (proc_world (fire 3 (Sample.process0 Sample.config_full)))
     = (3 + instances (proc_world (Sample.process0 Sample.config_full)))%nat.
Proof.
  apply (X21_every_firing_makes_an_object 3
           (Sample.process0 Sample.config_full)).
  vm_compute. reflexivity.
Defined.

(** ** Closing, then clicking the tray icon *)

(** X22.  With the add-on attached: pressing the close button and then
    clicking the tray icon brings every window back, whatever the minimized
    test of [_showWindows] answers.  The windows that were visible are
    visible again, each as it was before unless the test succeeded on it;
    no other widget changes; the application keeps running. *)
Theorem X22_close_button_then_tray_click_brings_windows_back
  (b : bool -> bool) (a : App) :
  attached a ->
  let a1 := run b [CloseRequested FromCloseButton] a in
  let a2 := run b [CloseRequested FromCloseButton;
                   TrayIconActivated Qt.Trigger] a in
  _visibleWindows (world a1) = []
  /\ (forall ref, visible_window (world a2) ref <-> visible_window (world a) ref)
  /\ (forall ref wd,
        visible_window (world a) ref ->
        widgets (world a) !! ref = Some wd ->
        widgets (world a2) !! ref
        = Some (if b (Qt.isMinimized wd) then Qt.showNormal wd else wd))
  /\ (forall ref,
        ~ visible_window (world a) ref ->
        widgets (world a2) !! ref = widgets (world a) !! ref)
  /\ isMinimizedToTray (self a2) = false
  /\ running (world a2) = true.
Proof.
  intros Hatt a1 a2.
  pose proof Hatt as ((_ & _ & Hrun) & _).
  destruct (close_button_hides a Hatt) as (_ & Hhide).
  destruct (same_host_hideAll a) as (_ & Hr & _).
  assert (Ha1 : a1 = hideAll a).
  { subst a1. unfold run. rewrite Hrun.
    change (dispatch b (CloseRequested FromCloseButton) a)
      with (QWidget_close a).
    exact Hhide. }
  assert (Ha2 : a2 = showAll b (hideAll a)).
  { subst a2. unfold run. rewrite Hrun.
    change (dispatch b (CloseRequested FromCloseButton) a)
      with (QWidget_close a).
    rewrite Hhide, Hr, Hrun.
    change (dispatch b (TrayIconActivated Qt.Trigger) (hideAll a))
      with (onActivated b Qt.Trigger (hideAll a)).
    unfold onActivated.
    change (isMinimizedToTray (self (hideAll a))) with true.
    now rewrite !orb_true_r. }
  rewrite Ha1, Ha2. clear Ha1 Ha2 a1 a2.
  destruct (hideAll_then_showAll b a) as (_ & Hnone & _ & Hvis & Hrest & Hflag).
  split; [exact Hnone |].
  split; [| split; [exact Hvis | split; [exact Hrest | split; [exact Hflag |]]]].
  - intros ref. split.
    + intros (wd2 & Hwd2 & Hd2 & Hw2 & Hh2 & Hc2).
      destruct (decide (ref ∈ _visibleWindows (world a))) as [Hin | Hout];
        [now apply elem_of_visibleWindows |].
      rewrite elem_of_visibleWindows in Hout.
      rewrite (Hrest ref Hout) in Hwd2. contradiction Hout.
      exists wd2. auto.
    + intros Hv. pose proof Hv as (wd & Hwd & Hd & Hw & Hh & Hc).
      exists (if b (Qt.isMinimized wd) then Qt.showNormal wd else wd).
      split; [exact (Hvis ref wd Hv Hwd) |].
      destruct (b (Qt.isMinimized wd)); simpl; auto.
  - destruct (same_host_showAll b (hideAll a)) as (_ & Hr1 & _).
    now rewrite Hr1, Hr.
Qed.

Lemma X22_close_button_then_tray_click_brings_windows_back_witness :
  let a1 := run opaque_enum [CloseRequested FromCloseButton]
              Sample.initialized in
  let a2 := run opaque_enum
              [CloseRequested FromCloseButton; TrayIconActivated Qt.Trigger]
              Sample.initialized in
  _visibleWindows (world a1) = []
  /\ (forall ref,
        visible_window (world a2) ref
        <-> visible_window (world Sample.initialized) ref)
  /\ (forall ref wd,
        visible_window (world Sample.initialized) ref ->
        widgets (world Sample.initialized) !! ref = Some wd ->
        widgets (world a2) !! ref
        = Some (if opaque_enum (Qt.isMinimized wd)
                then Qt.showNormal wd else wd))
  /\ (forall ref,
        ~ visible_window (world Sample.initialized) ref ->
        widgets (world a2) !! ref = widgets (world Sample.initialized) !! ref)
  /\ isMinimizedToTray (self a2) = false
  /\ running (world a2) = true.
Proof.
  apply (X22_close_button_then_tray_click_brings_windows_back
           opaque_enum Sample.initialized).
  vm_compute. repeat split.
Defined.

(** ** After a restore *)

Lemma showAll_changes_no_widget (b : bool -> bool) (a : App) :
  (forall x, b x = false) ->
  isMinimizedToTray (self a) = false ->
  widgets (world (showAll b a)) = widgets (world a).
Proof.
  intros Hb Hflag.
  destruct (showAll_world b a) as (Hwid & _). rewrite Hflag in Hwid.
  rewrite Hwid. apply widgets_eq_by_lookup. intros ref.
  rewrite lookup_showWindows by apply NoDup_visibleWindows.
  destruct (decide (ref ∈ _visibleWindows (world a))) as [Hin | _];
    [| reflexivity].
  apply elem_of_visibleWindows in Hin as (wd & Hwd & Hd & _ & Hh & _).
  rewrite Hwd. simpl. f_equal. unfold restore_widget.
  rewrite Hd, Hb. destruct wd as [iw ih ch ws del]. simpl in *. now subst.
Qed.

Lemma anyWindowMinimized_ext (w1 w2 : World) :
  widgets w1 = widgets w2 -> _anyWindowMinimized w1 = _anyWindowMinimized w2.
Proof.
  intros H. unfold _anyWindowMinimized.
  rewrite (visibleWindows_ext _ _ H). unfold the_widget. now rewrite H.
Qed.

(** X23.  When the minimized test of [_showWindows] never succeeds (the
    toolkit's constant equals no [bool]) and nothing is hidden to the tray,
    [showAll] changes no widget: a minimized window stays minimized.  So
    while some visible window is (exactly) minimized, every primary click
    on the tray icon runs [showAll] again, however many there are: no
    window changes and [isMinimizedToTray] is never set. *)
Theorem X23_clicks_never_hide_while_a_window_stays_minimized
  (b : bool -> bool) (n : nat) (a : App) :
  (forall x, b x = false) ->
  isMinimizedToTray (self a) = false ->
  _anyWindowMinimized (world a) = true ->
  widgets (world (showAll b a)) = widgets (world a)
  /\ widgets (world (clicks b n a)) = widgets (world a)
  /\ isMinimizedToTray (self (clicks b n a)) = false
  /\ _anyWindowMinimized (world (clicks b n a)) = true.
Proof.
  intros Hb Hflag Hmin.
  split; [now apply showAll_changes_no_widget |].
  induction n as [| n (IHw & IHf & IHm)]; [now repeat split |].
  change (clicks b (S n) a)
    with (onActivated b Qt.Trigger (clicks b n a)).
  assert (Hshow : onActivated b Qt.Trigger (clicks b n a)
                  = showAll b (clicks b n a)).
  { unfold onActivated. simpl. rewrite IHm. now rewrite orb_true_r. }
  rewrite Hshow.
  pose proof (showAll_changes_no_widget b (clicks b n a) Hb IHf) as Hw.
  split; [now rewrite Hw |]. split; [reflexivity |].
  rewrite <- IHm. now apply anyWindowMinimized_ext.
Qed.

Lemma X23_clicks_never_hide_while_a_window_stays_minimized_witness :
  widgets (world (showAll opaque_enum Sample.initialized))
  = widgets (world Sample.initialized)
  /\ widgets (world (clicks opaque_enum 3 Sample.initialized))
     = widgets (world Sample.initialized)
  /\ isMinimizedToTray (self (clicks opaque_enum 3 Sample.initialized)) = false
  /\ _anyWindowMinimized (world (clicks opaque_enum 3 Sample.initialized))
     = true.
Proof.
  apply (X23_clicks_never_hide_while_a_window_stays_minimized opaque_enum 3
           Sample.initialized).
  - intros x. reflexivity.
  - vm_compute. reflexivity.
  - vm_compute. reflexivity.
Defined.

Example sample_minimized_window_keeps_tray_click_showing :
  _anyWindowMinimized (world Sample.initialized) = true
  /\ _anyWindowMinimized (world (showAll opaque_enum Sample.initialized))
     = true.
Proof. vm_compute. split; reflexivity. Qed.

(** ** A change of theme *)

Lemma setSystemTrayIcon_paints (ti : nat) (n px : Z) (a : App) :
  Py.as_int (dueFontSize (self a)) = inr px ->
  _setSystemTrayIcon ti n a
  = (inr tt, on_world (setIcon ti (painted_icon a n px)) a).
Proof.
  intros Hfont. unfold painted_icon.
  destruct (formatNumber_returns n) as [text Htext]. rewrite Htext.
  exact (setSystemTrayIcon_eq a ti n text _ Htext
           (createReviewsIcon_int a text _ px Hfont)).
Qed.

(** X24.  After the theme has changed, [theme_did_change] repaints the
    icon with the colours of the new theme even though the due-count is
    the cached one, whereas [state_did_change] leaves the icon as it was.
    (The font size is a number, the tray icon exists, [showDueAmount] is
    on and the cached count is the count due.) *)
Theorem X24_theme_change_repaints_in_the_new_colours
  (b : bool -> bool) (a : App) (px : Z) (night : bool) :
  Py.as_int (dueFontSize (self a)) = inr px ->
  is_Some (trayIcons (world a) !! trayIcon (self a)) ->
  showDueAmount (self a) = true ->
  _displayedNumberOfCardsDue (self a) = _getAmountOfCardsDue a ->
  let changed := dispatch b (NightModeChanged night) a in
  let n := _getAmountOfCardsDue a in
  tray_image (world (dispatch b ThemeDidChange changed)) (trayIcon (self a))
  = Some (painted_icon changed n px)
  /\ tray_image (world (dispatch b StateDidChange changed)) (trayIcon (self a))
     = tray_image (world a) (trayIcon (self a)).
Proof.
  intros Hpx Hti Hshow Hcache changed n.
  assert (Hn : _getAmountOfCardsDue changed = n) by reflexivity.
  split.
  - change (dispatch b ThemeDidChange changed)
      with (snd (updateSystemTrayIcon true changed)).
    rewrite updateSystemTrayIcon_forced.
    rewrite (setSystemTrayIcon_paints _ _ px) by exact Hpx.
    rewrite Hn.
    change (snd (?r, ?st)) with st.
    change (trayIcon (self changed)) with (trayIcon (self a)).
    change (world (on_world ?f ?st)) with (f (world st)).
    rewrite tray_image_setIcon by exact Hti. reflexivity.
  - change (dispatch b StateDidChange changed)
      with (snd (updateSystemTrayIcon false changed)).
    rewrite updateSystemTrayIcon_unchanged; [reflexivity | exact Hshow |].
    symmetry. exact Hcache.
Qed.

Lemma X24_theme_change_repaints_in_the_new_colours_witness :
  let a := snd (updateSystemTrayIcon true Sample.initialized) in
  let changed := dispatch int_valued_enum (NightModeChanged true) a in
  let n := _getAmountOfCardsDue a in
  tray_image (world (dispatch int_valued_enum ThemeDidChange changed))
    (trayIcon (self a))
  = Some (painted_icon changed n 14)
  /\ tray_image (world (dispatch int_valued_enum StateDidChange changed))
       (trayIcon (self a))
     = tray_image (world a) (trayIcon (self a)).
Proof.
  apply (X24_theme_change_repaints_in_the_new_colours int_valued_enum
           (snd (updateSystemTrayIcon true Sample.initialized)) 14 true).
  - reflexivity.
  - vm_compute. eauto.
  - reflexivity.
  - vm_compute. reflexivity.
Defined.

(** ** The properties of initialization at work *)

Lemma X16_init_rewires_the_main_window_witness :
  let a := fresh_app Sample.config_full in
  let a' := snd (__init__ a) in
  let m := mw (world a) in
  let m' := mw (world a') in
  let id := ident (self a) in
  Anki.closeEvent m' = Anki.repl_handler
  /\ Anki.closeEventFromAction m' = false
  /\ Anki.actionExit_triggered m'
     = list_difference (Anki.actionExit_triggered m) [Qt.mw_close]
       ++ [Qt.bound id Qt.m_onExit]
  /\ (Qt.mw_close ∉ Anki.actionExit_triggered m')
  /\ Anki.focusChanged m'
     = Anki.focusChanged m ++ [Qt.bound id Qt.m_onFocusChanged]
  /\ quitOnLastWindowClosed (world a') = false
  /\ gui_hooks (world a')
     = Anki.mkHooks
         (Anki.theme_did_change (gui_hooks (world a))
          ++ [Anki.forceUpdateFunction id])
         (Anki.state_did_change (gui_hooks (world a))
          ++ [Anki.updateFunction id])
         (Anki.operation_did_execute (gui_hooks (world a))
          ++ [Anki.updateFunction id]).
Proof.
  apply (X16_init_rewires_the_main_window (fresh_app Sample.config_full)).
  vm_compute. reflexivity.
Defined.

Lemma X17_init_shows_a_new_tray_icon_witness :
  let a := fresh_app Sample.config_full in
  let a' := snd (__init__ a) in
  let n := _getAmountOfCardsDue a' in
  exists ic text,
    trayIcon (self a') = length (trayIcons (world a))
    /\ trayIcons (world a')
       = trayIcons (world a)
         ++ [Qt.mkTrayIcon (Some ic) true
               [Qt.NewAction "Show all windows"
                  [Qt.bound (ident (self a)) Qt.m_showAll];
                Qt.actionExit]
               [Qt.bound (ident (self a)) Qt.m_onActivated]]
    /\ _formatNumber n = inr text
    /\ badge ic
       = (if (n >? 0) && showDueAmount (self a') then Some text else None)
    /\ _displayedNumberOfCardsDue (self a')
       = _displayedNumberOfCardsDue (self a).
Proof.
  apply (X17_init_shows_a_new_tray_icon (fresh_app Sample.config_full)).
  vm_compute. reflexivity.
Defined.

Lemma X18_hide_on_startup_decides_how_it_starts_witness :
  let a := fresh_app
             (<[ "hide_on_startup" := Py.JBool true ]> Sample.config_full) in
  let a' := snd (__init__ a) in
  exists h,
    config (world a) !! "hide_on_startup" = Some h
    /\ isMinimizedToTray (self a') = Py.truthy h
    /\ (Py.truthy h = true ->
        _visibleWindows (world a') = []
        /\ explicitlyHiddenWindows (self a') = _visibleWindows (world a)
        /\ forall ref,
             visible_window (world a) ref ->
             widgets (world a') !! ref = Qt.hide <$> widgets (world a) !! ref)
    /\ (Py.truthy h = false ->
        widgets (world a') = widgets (world a)
        /\ calls (world a') = calls (world a)
        /\ explicitlyHiddenWindows (self a') = []).
Proof.
  apply (X18_hide_on_startup_decides_how_it_starts
           (fresh_app
              (<[ "hide_on_startup" := Py.JBool true ]> Sample.config_full))).
  vm_compute. reflexivity.
Defined.

Example sample_starts_hidden :
  let a' := snd (__init__
                   (fresh_app
                      (<[ "hide_on_startup" := Py.JBool true ]>
                         Sample.config_full))) in
  isMinimizedToTray (self a') = true
  /\ explicitlyHiddenWindows (self a') = [0; 1]%nat
  /\ _visibleWindows (world a') = [].
Proof. vm_compute. repeat split. Qed.

Lemma X20_show_due_is_switched_off_by_false_or_zero_witness :
  let a := fresh_app (<[ "show_due" := Py.JInt 0 ]> Sample.config_full) in
  let a' := snd (__init__ a) in
  (showDueAmount (self a') = false
   <-> showDueAmount (self a) = false
       \/ exists v,
            config (world a) !! "show_due" = Some v
            /\ (v = Py.JBool false \/ v = Py.JInt 0))
  /\ dueFontSize (self a')
     = default (dueFontSize (self a)) (config (world a) !! "due_font_size").
Proof.
  apply (X20_show_due_is_switched_off_by_false_or_zero
           (fresh_app (<[ "show_due" := Py.JInt 0 ]> Sample.config_full))).
  vm_compute. reflexivity.
Defined.

(** ** A firing that succeeds attaches the add-on *)

Lemma firing_attaches (p : Process) :
  hasattr (mw (proc_world p)) "trayIcon" = false ->
  running (proc_world p) = true ->
  fst (minimizeToTrayInit p) = inr tt ->
  attached (Sample.app_of (snd (minimizeToTrayInit p))).
Proof.
  intros Hguard Hrun. unfold minimizeToTrayInit. rewrite Hguard.
  unfold AnkiSystemTray_new.
  pose proof (init_installs
                (mkApp (class_attributes (instances (proc_world p)))
                   (set_instances (S (instances (proc_world p)))
                      (proc_world p))) Hrun) as Hinit.
  destruct (__init__ _) as [[e | []] a1]; simpl; [discriminate |].
  intros _. destruct Hinit as (Hh & Hf & Hr).
  split; [now repeat split |].
  unfold hasattr. simpl. apply bool_decide_eq_true. apply elem_of_union_l.
  now apply elem_of_singleton.
Qed.

(** ** A tray click, by what it does to the windows *)

(** X25.  A tray activation whose reason is not the primary click changes
    nothing.  On a primary click, if the application is unfocused, or the
    state of some visible window is exactly [WindowMinimized], or
    [isMinimizedToTray] is set, then every window to restore (the snapshot
    with the flag set, the visible windows otherwise) that still exists
    ends shown, no other widget changes and the flag is cleared.
    Otherwise, on [win32] nothing changes, and elsewhere every visible
    window is hidden and kept in the snapshot, no window is visible any
    more, no other widget changes and the flag is set. *)
Theorem X25_tray_click_shows_or_hides_the_windows
  (b : bool -> bool) (reason : Qt.ActivationReason) (a : App) :
  let a' := onActivated b reason a in
  let windows :=
    if isMinimizedToTray (self a) then explicitlyHiddenWindows (self a)
    else _visibleWindows (world a) in
  (reason <> Qt.Trigger -> a' = a)
  /\ (reason = Qt.Trigger ->
      (isAnkiFocused (self a) = false
       \/ (exists ref,
             visible_window (world a) ref
             /\ Qt.windowState (the_widget (world a) ref) = Qt.WindowMinimized)
       \/ isMinimizedToTray (self a) = true) ->
      (forall ref,
          ref ∈ windows -> sip_isdeleted (world a) ref = false ->
          Qt.isHidden (the_widget (world a') ref) = false)
      /\ (forall ref,
            ref ∉ windows ->
            widgets (world a') !! ref = widgets (world a) !! ref)
      /\ isMinimizedToTray (self a') = false)
  /\ (reason = Qt.Trigger ->
      isAnkiFocused (self a) = true ->
      (forall ref,
          visible_window (world a) ref ->
          Qt.windowState (the_widget (world a) ref) <> Qt.WindowMinimized) ->
      isMinimizedToTray (self a) = false ->
      if String.prefix "win32" (platform (world a)) then a' = a
      else
        _visibleWindows (world a') = []
        /\ explicitlyHiddenWindows (self a') = _visibleWindows (world a)
        /\ (forall ref,
              visible_window (world a) ref ->
              widgets (world a') !! ref = Qt.hide <$> widgets (world a) !! ref)
        /\ (forall ref,
              ~ visible_window (world a) ref ->
              widgets (world a') !! ref = widgets (world a) !! ref)
        /\ isMinimizedToTray (self a') = true).
Proof.
  intros a' windows.
  destruct (onActivated_runs b reason a) as (Hother & Hshow & Hhide).
  split; [exact Hother |]. split.
  - intros Hr Hcond. subst a'. rewrite (Hshow Hr Hcond).
    destruct (showAll_world b a) as (Hwid & _). fold windows in Hwid.
    split; [| split; [| reflexivity]].
    + intros ref Hin Hlive. unfold the_widget. rewrite Hwid.
      apply (shown_after_showWindows b); [now left | exact Hlive].
    + intros ref Hout. rewrite Hwid. now apply lookup_showWindows_outside.
  - intros Hr Hf Hnone Hflag. subst a'. rewrite (Hhide Hr Hf Hnone Hflag).
    destruct (String.prefix "win32" (platform (world a))); [reflexivity |].
    split; [apply visibleWindows_hideAll |]. split; [reflexivity |].
    split; [| split; [| reflexivity]].
    + intros ref Hvis. rewrite lookup_hideAll.
      destruct (decide (ref ∈ _visibleWindows (world a))) as [_ | Hout];
        [reflexivity |].
      contradiction Hout. now apply elem_of_visibleWindows.
    + intros ref Hvis. rewrite lookup_hideAll.
      destruct (decide (ref ∈ _visibleWindows (world a))) as [Hin | _];
        [| reflexivity].
      contradiction Hvis. now apply elem_of_visibleWindows.
Qed.

Example sample_click_with_a_minimized_window_shows :
  let a' := onActivated opaque_enum Qt.Trigger Sample.initialized in
  isMinimizedToTray (self a') = false
  /\ _visibleWindows (world a') = [0; 1]%nat.
Proof. vm_compute. split; reflexivity. Qed.

(** ** Hiding, then restoring, whatever the binding *)

(** X26.  [hideAll()] followed at once by [showAll()], whatever the
    minimized test of [_showWindows] answers: the snapshot is the list of
    the windows visible when [hideAll] ran, after [hideAll] no window is
    visible, [showAll] shows again exactly the windows of the snapshot,
    each of them ends as it was before (or, where the test succeeded,
    cleared of [WindowMinimized], [WindowMaximized] and
    [WindowFullScreen]), every other widget is as before, and
    [isMinimizedToTray] is false. *)
Theorem X26_hideAll_then_showAll_shows_exactly_the_snapshot
  (b : bool -> bool) (a : App) :
  let a1 := hideAll a in
  let a2 := showAll b a1 in
  explicitlyHiddenWindows (self a1) = _visibleWindows (world a)
  /\ _visibleWindows (world a1) = []
  /\ (forall ref,
        shown_in (calls_since (world a1) (world a2)) ref
        <-> visible_window (world a) ref)
  /\ (forall ref wd,
        visible_window (world a) ref ->
        widgets (world a) !! ref = Some wd ->
        widgets (world a2) !! ref
        = Some (if b (Qt.isMinimized wd) then Qt.showNormal wd else wd))
  /\ (forall ref,
        ~ visible_window (world a) ref ->
        widgets (world a2) !! ref = widgets (world a) !! ref)
  /\ isMinimizedToTray (self a2) = false.
Proof. apply hideAll_then_showAll. Qed.

(** ** The close button without [mw.systemTray] *)

(** X27.  With the replacement handler installed and [mw.systemTray]
    unassigned (the state a firing leaves whose [__init__] raised on
    [hide_on_startup]), a close event from the close button makes the
    handler raise [AttributeError] before anything is hidden: the handler
    leaves the whole state as it found it, the event is not ignored, the
    add-on object and the log of calls on widgets are as before, and so is
    every widget other than the main window. *)
Theorem X27_close_button_raises_without_systemTray (a : App) :
  installed a ->
  hasattr (mw (world a)) "systemTray" = false ->
  let a' := deliver_close FromCloseButton a in
  let main := Anki.mw_widget (mw (world a)) in
  mw_closeEvent (Qt.mkCloseEvent true) a
  = (inl (Py.AttributeError "systemTray"), a)
  /\ self a' = self a
  /\ calls (world a') = calls (world a)
  /\ (forall ref,
        ref <> main -> widgets (world a') !! ref = widgets (world a) !! ref).
Proof.
  intros Hinst Hattr a' main.
  destruct (close_button_raises a Hinst Hattr) as (Hraise & Hclose).
  split; [exact Hraise |].
  subst a'. change (deliver_close FromCloseButton a) with (QWidget_close a).
  rewrite Hclose. simpl.
  split; [reflexivity |]. split; [reflexivity |].
  intros ref Hne. now apply list_lookup_alter_ne.
Qed.

Lemma X27_close_button_raises_without_systemTray_witness :
  let a := half_initialized in
  let a' := deliver_close FromCloseButton a in
  let main := Anki.mw_widget (mw (world a)) in
  mw_closeEvent (Qt.mkCloseEvent true) a
  = (inl (Py.AttributeError "systemTray"), a)
  /\ self a' = self a
  /\ calls (world a') = calls (world a)
  /\ (forall ref,
        ref <> main -> widgets (world a') !! ref = widgets (world a) !! ref).
Proof.
  apply (X27_close_button_raises_without_systemTray half_initialized).
  - vm_compute. repeat split.
  - vm_compute. reflexivity.
Defined.
